(** * streamlint.py: the policy-inventory master dataset builder

    A shallow embedding of [process_file] and of the assembly part of [main]
    (src/streamlint.py), over a small model of the pandas operations the two
    functions call, and the properties of the column mapper, the budget
    normalizer, the row filter and the dataset assembler. *)

From Stdlib Require Import String Ascii DecimalString.
From Stdlib Require Import ZArith Lia Bool Arith PeanoNat List.
Import ListNotations.
Local Open Scope string_scope.
Local Open Scope list_scope.
Local Open Scope nat_scope.

Set Implicit Arguments.

(** ** Python values and exceptions *)

(** A cell of a table: the missing-value marker [np.nan], a text or an
    integer.  Other scalar kinds (floats, dates) are outside the model. *)
Inductive cell : Type :=
| NaN
| Str (s : string)
| Int (z : Z).

Definition cell_eqb (a b : cell) : bool :=
  match a, b with
  | NaN, NaN => true
  | Str s, Str t => String.eqb s t
  | Int x, Int y => Z.eqb x y
  | _, _ => false
  end.

Inductive exn : Type :=
| KeyError (key : string)
| ValueError (msg : string)
| ReadError (cause : string).

(** Computations that can raise: [inl e] is a raised exception. *)
Definition Res (A : Type) : Type := (exn + A)%type.

Class Monad (M : Type -> Type) : Type := {
  ret : forall {A}, A -> M A;
  bind : forall {A B}, M A -> (A -> M B) -> M B
}.

Notation "x <- c1 ;; c2" := (bind c1 (fun x => c2))
  (at level 61, c1 at next level, right associativity).
Notation "c1 ;; c2" := (bind c1 (fun _ => c2))
  (at level 61, right associativity).

#[global] Instance Monad_Res : Monad Res := {
  ret := fun A (a : A) => inr a;
  bind := fun A B (m : Res A) (k : A -> Res B) =>
            match m with
            | inl e => inl e
            | inr a => k a
            end
}.

Definition raise {A : Type} (e : exn) : Res A := inl e.

(** ** Text *)

(** [str.lower] on one character, on the ASCII range. *)
Definition lower_ascii (c : ascii) : ascii :=
  let n := nat_of_ascii c in
  if (65 <=? n) && (n <=? 90) then ascii_of_nat (n + 32) else c.

(** [str.lower]. *)
Fixpoint lower (s : string) : string :=
  match s with
  | EmptyString => EmptyString
  | String c r => String (lower_ascii c) (lower r)
  end.

(** Python truthiness of a [str]: the empty text is falsy. *)
Definition truthy (s : string) : bool := negb (String.eqb s "").

(** [str(v)] for the value of a cell. *)
Definition str (c : cell) : string :=
  match c with
  | NaN => "nan"
  | Str s => s
  | Int z => NilZero.string_of_int (Z.to_int z)
  end.

(** ** pandas: Series and DataFrame *)

(** Row labels.  [pd.read_excel] and [ignore_index=True] give the labels
    [0 .. n-1]; [dropna] keeps the labels of the rows that survive. *)
Definition Index : Type := list nat.

Record Series (A : Type) : Type := mkSeries {
  s_index : Index;
  s_values : list A
}.

(** A frame: its row labels and its columns in order, each column holding one
    value per label. *)
Record DataFrame : Type := mkDataFrame {
  index : Index;
  columns : list (string * list cell)
}.

Definition column_names (df : DataFrame) : list string :=
  map fst (columns df).

(** [len(df)] *)
Definition len (df : DataFrame) : nat := length (index df).

(** [df.empty]: one of the two axes has length 0. *)
Definition empty (df : DataFrame) : bool :=
  (len df =? 0) || (length (columns df) =? 0).

(** Every column has one value per row label. *)
Definition well_formed (df : DataFrame) : bool :=
  forallb (fun col => length (snd col) =? len df) (columns df).

(** [pd.DataFrame(columns=names)]: no rows, the given columns. *)
Definition DataFrame_columns (names : list string) : DataFrame :=
  {| index := []; columns := map (fun c => (c, [])) names |}.

(** [name in df.columns] *)
Definition in_columns (name : string) (df : DataFrame) : bool :=
  existsb (String.eqb name) (column_names df).

Fixpoint assoc {V : Type} (k : string) (l : list (string * V)) : option V :=
  match l with
  | [] => None
  | (k', v) :: rest => if String.eqb k k' then Some v else assoc k rest
  end.

(** [df[name]]: the column as a Series over the frame's labels. *)
Definition getitem (df : DataFrame) (name : string) : Res (Series cell) :=
  match assoc name (columns df) with
  | Some vals => ret {| s_index := index df; s_values := vals |}
  | None => raise (KeyError name)
  end.

Definition index_eqb (a b : Index) : bool :=
  if list_eq_dec Nat.eq_dec a b then true else false.

Fixpoint has_duplicates (l : Index) : bool :=
  match l with
  | [] => false
  | x :: rest => existsb (Nat.eqb x) rest || has_duplicates rest
  end.

Fixpoint lookup_label {A : Type} (lbl : nat) (idx : Index) (vals : list A)
  : option A :=
  match idx, vals with
  | i :: idx', v :: vals' =>
      if Nat.eqb lbl i then Some v else lookup_label lbl idx' vals'
  | _, _ => None
  end.

(** [s.reindex(idx)]: the values of [s] at the labels [idx], [np.nan] where
    [s] has no such label; refused when the labels of [s] repeat. *)
Definition reindex (s : Series cell) (idx : Index) : Res (list cell) :=
  if has_duplicates (s_index s)
  then raise (ValueError "cannot reindex on an axis with duplicate labels")
  else ret (map (fun lbl => match lookup_label lbl (s_index s) (s_values s) with
                            | Some v => v
                            | None => NaN
                            end) idx).

(** Replace the column [key] where it stands, or append it as the last
    column. *)
Fixpoint set_column (cols : list (string * list cell)) (key : string)
  (vals : list cell) : list (string * list cell) :=
  match cols with
  | [] => [(key, vals)]
  | (k, v) :: rest =>
      if String.eqb key k then (k, vals) :: rest
      else (k, v) :: set_column rest key vals
  end.

(** [DataFrame._ensure_valid_index]: a frame without rows takes the labels of
    the first non-empty list-like value assigned to it; its columns are
    re-labelled, which fills them with [np.nan]. *)
Definition ensure_valid_index (df : DataFrame) (value_index : Index)
  : DataFrame :=
  if (len df =? 0) && (0 <? length value_index)
  then {| index := value_index;
          columns := map (fun col => (fst col, repeat NaN (length value_index)))
                         (columns df) |}
  else df.

(** [df[key] = value] for a scalar: the value on every row. *)
Definition setitem_scalar (df : DataFrame) (key : string) (value : cell)
  : DataFrame :=
  {| index := index df;
     columns := set_column (columns df) key (repeat value (len df)) |}.

(** [df[key] = value] for a Series: the value is aligned on the frame's
    labels (taken as it is when the labels are the same, or when the frame
    has no rows). *)
Definition setitem_series (df : DataFrame) (key : string) (value : Series cell)
  : Res DataFrame :=
  let df := ensure_valid_index df (s_index value) in
  vals <- (if index_eqb (s_index value) (index df) || (len df =? 0)
           then ret (s_values value)
           else reindex value (index df)) ;;
  ret {| index := index df; columns := set_column (columns df) key vals |}.

(** [df[key] = value] for an array or a range: positional, the length must be
    the number of rows. *)
Definition setitem_array (df : DataFrame) (key : string) (value : list cell)
  : Res DataFrame :=
  let df := ensure_valid_index df (seq 0 (length value)) in
  if length value =? len df
  then ret {| index := index df; columns := set_column (columns df) key value |}
  else raise (ValueError "Length of values does not match length of index").

(** ** pandas: element-wise operations on a Series *)

Definition isna_cell (c : cell) : bool :=
  match c with
  | NaN => true
  | _ => false
  end.

Definition notna_cell (c : cell) : bool := negb (isna_cell c).

Definition Series_map {A B : Type} (f : A -> B) (s : Series A) : Series B :=
  {| s_index := s_index s; s_values := map f (s_values s) |}.

(** [s.isna()] *)
Definition isna (s : Series cell) : Series bool := Series_map isna_cell s.

(** [s.fillna(value)] *)
Definition fillna (s : Series cell) (value : cell) : Series cell :=
  Series_map (fun c => if isna_cell c then value else c) s.

(** [s.astype(str)] *)
Definition astype_str (s : Series cell) : Series string := Series_map str s.

(** [s.str.lower()] *)
Definition str_lower (s : Series string) : Series string := Series_map lower s.

(** [s == value] *)
Definition eq_scalar (s : Series string) (value : string) : Series bool :=
  Series_map (fun x => String.eqb x value) s.

(** [s.isin(values)] *)
Definition isin (s : Series string) (values : list string) : Series bool :=
  Series_map (fun x => existsb (String.eqb x) values) s.

(** [a | b] on two boolean Series over the same labels. *)
Definition Series_or (a b : Series bool) : Series bool :=
  {| s_index := s_index a;
     s_values := map (fun p => orb (fst p) (snd p))
                     (combine (s_values a) (s_values b)) |}.

Infix "|||" := Series_or (at level 50, left associativity).

(** [np.where(cond, x, y)] with scalar [x] and [y]: an array. *)
Definition np_where (cond : Series bool) (x y : cell) : list cell :=
  map (fun b : bool => if b then x else y) (s_values cond).

(** Keep the elements whose mask is [True]. *)
Fixpoint select {A : Type} (mask : list bool) (l : list A) : list A :=
  match mask, l with
  | b :: mask', x :: l' => if b then x :: select mask' l' else select mask' l'
  | _, _ => []
  end.

(** Per row position: is some column not [np.nan] there? *)
Definition row_mask (df : DataFrame) : list bool :=
  map (fun i => existsb (fun col => notna_cell (nth i (snd col) NaN))
                        (columns df))
      (seq 0 (len df)).

(** [df.dropna(how='all')]: the rows in which every column is [np.nan] are
    removed; the other rows keep their labels and their order. *)
Definition dropna_all (df : DataFrame) : DataFrame :=
  let mask := row_mask df in
  {| index := select mask (index df);
     columns := map (fun col => (fst col, select mask (snd col)))
                    (columns df) |}.

(** [pd.concat(frames, ignore_index=True)]: the rows of the frames one after
    the other, over the union of their columns in order of first appearance
    ([np.nan] where a frame lacks a column), relabelled [0 .. n-1]. *)
Definition add_name (names : list string) (key : string) : list string :=
  if existsb (String.eqb key) names then names else names ++ [key].

Definition union_names (frames : list DataFrame) : list string :=
  fold_left add_name (flat_map column_names frames) [].

Definition column_or_nan (df : DataFrame) (name : string) : list cell :=
  match assoc name (columns df) with
  | Some vals => vals
  | None => repeat NaN (len df)
  end.

Definition concat (frames : list DataFrame) : Res DataFrame :=
  match frames with
  | [] => raise (ValueError "No objects to concatenate")
  | _ =>
      ret {| index := seq 0 (list_sum (map len frames));
             columns := map (fun c =>
                               (c, flat_map (fun df => column_or_nan df c)
                                            frames))
                            (union_names frames) |}
  end.

(** [df.head(n)] *)
Definition head (n : nat) (df : DataFrame) : DataFrame :=
  {| index := firstn n (index df);
     columns := map (fun col => (fst col, firstn n (snd col))) (columns df) |}.

(** [range(a, b)] as integer cells. *)
Definition range (a b : nat) : list cell :=
  map (fun i => Int (Z.of_nat i)) (seq a (b - a)).

(** The cells of the row at position [i], in column order. *)
Definition row_at (df : DataFrame) (i : nat) : list cell :=
  map (fun col => nth i (snd col) NaN) (columns df).

(** The size of an Excel sheet. *)
Definition MAX_ROWS : nat := 2 ^ 20.
Definition MAX_COLS : nat := 2 ^ 14.

(** A workbook with one sheet: its name, the header row and the rows under
    it. *)
Record Workbook : Type := mkWorkbook {
  sheet_name : string;
  header : list string;
  body : list (list cell)
}.

(** [df.to_excel(writer, index=False, sheet_name=...)] on the new workbook
    of [pd.ExcelWriter(output, engine="xlsxwriter")], the engine being
    installed: refused when the frame has more rows or columns than a sheet;
    the header takes the first row of the sheet, and the writer leaves out
    what falls below the last one. *)
Definition to_excel (df : DataFrame) (sheet : string) : Res Workbook :=
  if (MAX_ROWS <? len df) || (MAX_COLS <? length (columns df))
  then raise (ValueError "This sheet is too large!")
  else ret {| sheet_name := sheet;
              header := column_names df;
              body := firstn (MAX_ROWS - 1)
                             (map (row_at df) (seq 0 (len df))) |}.

(** ** The Schema Registry *)

Definition nl : string := String (ascii_of_nat 10) EmptyString.

Definition SL_NO : string := "Sl No".
Definition BUDGET : string :=
  "Demands with pledges, commitment, or funding (Yes/No)".
Definition THEMATIC_FOCUS : string :=
  "Thematic Focus (Brief description of the main themes or sectors covered (e.g., agriculture, forestry, gender, employment).)".
Definition IMPLEMENTATION_AGENCY : string :=
  "Implementation Agency (Ministry/departments/boards, etc..)".
Definition BUDGET_ALLOCATION : string :=
  "Budget Allocation (if any) Indicate if there is any budget attached and its size or source.".

Definition MASTER_COLUMNS : list string :=
  [ SL_NO; "Title"; "Type of document"; "Publication/Adoption Date"; "Country";
    "Goals/objectives/vision statements"; "Problems/challenges identified";
    "Calls for action/intervention"; BUDGET;
    "Indicators of urgency/priority"; "Type of demand";
    "Description of the specific Innovation(s)";
    "Type of Innovation"; "CGIAR Impact Area(s)"; "SDG Contribution";
    "Stakeholder groups involved";
    "Stakeholder group needs/demand/effective demand"; "URL" ].

(** The value side of the alias table: [None], a name, or a list of names. *)
Inductive alias_rule : Type :=
| RNone
| RStr (name : string)
| RList (names : list string).

(** A [dict] from target column to alias rule, in insertion order. *)
Definition Mapper : Type := list (string * alias_rule).

Definition mapper_clim : Mapper :=
  [ (SL_NO, RStr "Sl No");
    ("Country", RStr "Country");
    ("Title",
      RList ["Type of document (Policy; Program; Implementation plans; strategic plans, etc)";
             "Policy"]);
    ("Type of document",
      RStr ("Policy Type " ++ nl ++ "(e.g., Policy, Strategy, Action Plan.)")%string);
    ("Publication/Adoption Date",
      RList ["Publication/Adoption Date"; "Year of adoption"]);
    (THEMATIC_FOCUS, RStr THEMATIC_FOCUS);
    ("Goals/objectives/vision statements",
      RStr "Objectives/Goals (Short summary of the stated aims or goals of the policy).");
    ("Problems/challenges identified",
      RStr ("Remarks " ++ nl ++ "(Additional notes, such as challenges, reforms in progress, or relevance to global frameworks (e.g., SDGs).)")%string);
    ("Calls for action/intervention",
      RStr ("Key Provisions or Measures" ++ nl ++ "Summary of major policy actions or mechanisms introduced.")%string);
    (BUDGET, RStr BUDGET_ALLOCATION);
    ("Description of the specific Innovation(s)",
      RStr "Implementation Mechanism (Description of how the policy is implemented (e.g., through specific programs, agencies, funding mechanisms).)");
    ("SDG Contribution",
      RStr ("Policy Linkages" ++ nl ++ "Related policies or alignment with international frameworks (e.g., SDGs, UNFCCC).")%string);
    ("Stakeholder groups involved",
      RStr ("Implementation Agency " ++ nl ++ "(Ministry/departments/boards, etc..)")%string);
    ("URL", RList ["URL"; "Link to Full Document"]);
    (IMPLEMENTATION_AGENCY, RStr IMPLEMENTATION_AGENCY);
    ("Indicators of urgency/priority", RNone);
    ("Type of demand", RNone);
    ("Type of Innovation", RNone);
    ("CGIAR Impact Area(s)", RNone);
    ("Stakeholder group needs/demand/effective demand", RNone) ].

(** [mapper.get(key)] *)
Definition mapper_get (mapper : Mapper) (key : string) : alias_rule :=
  match assoc key mapper with
  | Some rule => rule
  | None => RNone
  end.

(** ** The Streamlit page *)

(** What the script writes on the page, in order.  A message is kept by its
    kind and its arguments, not by its text. *)
Inductive element : Type :=
| st_title
| st_write_intro
| st_write_processing (name : string)
| st_error (e : exn)
| st_success (rows : nat) (name : string)
| st_warning (name : string)
| st_subheader
| st_dataframe (df : DataFrame)
| st_write_total (rows : nat)
| st_download_button (file_name : string) (data : Workbook)
| st_info_no_data
| st_info_upload.

Definition Page : Type := list element.

(** The script: it writes on the page and returns or raises. *)
Definition App (A : Type) : Type := Page -> Res A * Page.

#[global] Instance Monad_App : Monad App := {
  ret := fun A (a : A) (p : Page) => (inr a, p);
  bind := fun A B (m : App A) (k : A -> App B) (p : Page) =>
            match m p with
            | (inl e, p') => (inl e, p')
            | (inr a, p') => k a p'
            end
}.

Definition st (e : element) : App unit := fun p => (inr tt, p ++ [e]).

Definition lift {A : Type} (r : Res A) : App A := fun p => (r, p).

(** An uploaded file: its name and what [pd.read_excel] makes of it. *)
Record UploadedFile : Type := mkUploadedFile {
  name : string;
  read_excel : Res DataFrame
}.

(** ** process_file *)

Section ProcessFile.

Variable df : DataFrame.

(** The inner [for col_name in source_col] loop, with its [found_col]
    flag. *)
Fixpoint scan_candidates (standardized_df : DataFrame) (target_col : string)
  (source_col : list string) : Res (DataFrame * bool) :=
  match source_col with
  | [] => ret (standardized_df, false)
  | col_name :: rest =>
      if in_columns col_name df then
        value <- getitem df col_name ;;
        standardized_df <- setitem_series standardized_df target_col value ;;
        ret (standardized_df, true)
      else scan_candidates standardized_df target_col rest
  end.

(** One round of [for target_col, source_col in mapper.items()]. *)
Definition map_column (standardized_df : DataFrame)
  (item : string * alias_rule) : Res DataFrame :=
  let (target_col, source_col) := item in
  match source_col with
  | RList names =>
      r <- scan_candidates standardized_df target_col names ;;
      let (standardized_df, found_col) := r in
      if negb found_col
      then ret (setitem_scalar standardized_df target_col NaN)
      else ret standardized_df
  | RStr source_col =>
      if truthy source_col && in_columns source_col df then
        value <- getitem df source_col ;;
        setitem_series standardized_df target_col value
      else ret (setitem_scalar standardized_df target_col NaN)
  | RNone => ret (setitem_scalar standardized_df target_col NaN)
  end.

Fixpoint map_columns (standardized_df : DataFrame) (items : Mapper)
  : Res DataFrame :=
  match items with
  | [] => ret standardized_df
  | item :: rest =>
      standardized_df <- map_column standardized_df item ;;
      map_columns standardized_df rest
  end.

Definition no_strings : list string :=
  [ "not specified"; "no exclusive"; "not publicly specified";
    "not direct"; "no dedicated budget" ].

(** The name that backs the budget field, after the [isinstance] step. *)
Definition budget_col_name (mapper : Mapper) : alias_rule :=
  match mapper_get mapper BUDGET with
  | RList names =>
      match find (fun col => in_columns col df) names with
      | Some col => RStr col
      | None => RNone
      end
  | other => other
  end.

(** The Yes/No array of the budget column. *)
Definition yes_no (original_budget : Series cell) : list cell :=
  let budget_data := str_lower (astype_str (fillna original_budget (Str ""))) in
  np_where (isna original_budget
            ||| eq_scalar budget_data ""
            ||| isin budget_data no_strings)
           (Str "No") (Str "Yes").

Definition normalize_budget (mapper : Mapper) (standardized_df : DataFrame)
  : Res DataFrame :=
  match budget_col_name mapper with
  | RStr col =>
      if truthy col && in_columns col df then
        original_budget <- getitem df col ;;
        setitem_array standardized_df BUDGET (yes_no original_budget)
      else ret standardized_df
  | _ => ret standardized_df
  end.

(** The table after the mapping loop and the budget step, before the rows
    are filtered. *)
Definition mapped (mapper : Mapper) : Res DataFrame :=
  standardized_df <- map_columns (DataFrame_columns MASTER_COLUMNS) mapper ;;
  normalize_budget mapper standardized_df.

(** [process_file] from the loaded table on. *)
Definition standardize (mapper : Mapper) : Res DataFrame :=
  standardized_df <- mapped mapper ;;
  ret (dropna_all standardized_df).

End ProcessFile.

Definition process_file (file_obj : UploadedFile) (mapper : Mapper)
  : App (option DataFrame) :=
  match read_excel file_obj with
  | inl e =>
      st (st_error e) ;;
      ret None
  | inr df =>
      standardized_df <- lift (standardize df mapper) ;;
      ret (Some standardized_df)
  end.

(** ** main *)

(** [pd.concat] and the renumbering of the "Sl No" column. *)
Definition assemble (all_dfs : list DataFrame) : Res DataFrame :=
  master_dataset <- concat all_dfs ;;
  setitem_array master_dataset SL_NO (range 1 (len master_dataset + 1)).

(** The [for f in uploaded_files] loop; [all_dfs] is appended to. *)
Fixpoint process_files (uploaded_files : list UploadedFile)
  (all_dfs : list DataFrame) : App (list DataFrame) :=
  match uploaded_files with
  | [] => ret all_dfs
  | f :: rest =>
      st (st_write_processing (name f)) ;;
      processed_df <- process_file f mapper_clim ;;
      all_dfs <- match processed_df with
                 | Some d =>
                     if negb (empty d) then
                       st (st_success (len d) (name f)) ;;
                       ret (all_dfs ++ [d])
                     else
                       st (st_warning (name f)) ;;
                       ret all_dfs
                 | None =>
                     st (st_warning (name f)) ;;
                     ret all_dfs
                 end ;;
      process_files rest all_dfs
  end.

Definition main (uploaded_files : list UploadedFile) : App unit :=
  st st_title ;;
  st st_write_intro ;;
  match uploaded_files with
  | _ :: _ =>
      all_dfs <- process_files uploaded_files [] ;;
      match all_dfs with
      | _ :: _ =>
          master_dataset <- lift (assemble all_dfs) ;;
          st st_subheader ;;
          st (st_dataframe (head 50 master_dataset)) ;;
          st (st_write_total (len master_dataset)) ;;
          output <- lift (to_excel master_dataset "MASTER") ;;
          st (st_download_button "MASTER_POLICY_DATASET.xlsx" output)
      | [] => st st_info_no_data
      end
  | [] => st st_info_upload
  end.

(** ** Notions used to state the properties *)

(** The source column an alias rule selects in [df], if any: what the three
    branches of the mapping loop test. *)
Definition resolve (df : DataFrame) (rule : alias_rule) : option string :=
  match rule with
  | RNone => None
  | RStr source_col =>
      if truthy source_col && in_columns source_col df then Some source_col
      else None
  | RList names => find (fun col => in_columns col df) names
  end.

(** The names an alias rule mentions. *)
Definition candidate_names (rule : alias_rule) : list string :=
  match rule with
  | RNone => []
  | RStr source_col => [source_col]
  | RList names => names
  end.

(** Some rule of the table names a column of [df]. *)
Definition some_alias_present (df : DataFrame) (mapper : Mapper) : bool :=
  existsb (fun item => existsb (fun col => in_columns col df)
                               (candidate_names (snd item)))
          mapper.

(** The outcome of one assignment of the mapping loop on the frame. *)
Definition assign (df standardized_df : DataFrame) (target_col : string)
  (source : option string) : DataFrame :=
  match source with
  | Some col =>
      let s := ensure_valid_index standardized_df (index df) in
      {| index := index s;
         columns := set_column (columns s) target_col (column_or_nan df col) |}
  | None => setitem_scalar standardized_df target_col NaN
  end.

Definition assign_all (df standardized_df : DataFrame) (items : Mapper)
  : DataFrame :=
  fold_left (fun s item => assign df s (fst item) (resolve df (snd item)))
            items standardized_df.

(** The frame has no rows yet, or the row labels of [df]. *)
Definition aligned (df standardized_df : DataFrame) : Prop :=
  index standardized_df = [] \/ index standardized_df = index df.

(** The column [key] of the frame holds [np.nan] on every row. *)
Definition all_missing (df : DataFrame) (key : string) : Prop :=
  getitem df key
  = inr {| s_index := index df; s_values := repeat NaN (len df) |}.

(** The rows of a frame: label and cells, in order. *)
Definition rows (df : DataFrame) : list (nat * list cell) :=
  map (fun i => (nth i (index df) 0, row_at df i)) (seq 0 (len df)).

(** Some rule of the table selects a column of [df]. *)
Definition some_resolved (df : DataFrame) (mapper : Mapper) : bool :=
  existsb (fun item => match resolve df (snd item) with
                       | Some _ => true
                       | None => false
                       end) mapper.

(** No rule of the table is the empty name. *)
Definition names_truthy (mapper : Mapper) : bool :=
  forallb (fun item => match snd item with
                       | RStr source_col => truthy source_col
                       | _ => true
                       end) mapper.

(** What the column of a target holds once its rule has been applied: the
    selected source column, or [np.nan] on every row. *)
Definition expected_column (df standardized_df : DataFrame)
  (source : option string) : list cell :=
  match source with
  | Some col => column_or_nan df col
  | None => repeat NaN (len standardized_df)
  end.

Definition column_settled (df standardized_df : DataFrame)
  (target_col : string) (source : option string) : Prop :=
  assoc target_col (columns standardized_df)
  = Some (expected_column df standardized_df source)
  /\ (source <> None -> index standardized_df = index df).

(** The Yes/No value of one budget cell: the row-wise reading of [yes_no]. *)
Definition classify (c : cell) : cell :=
  let text := lower (str (if isna_cell c then Str "" else c)) in
  if isna_cell c || String.eqb text "" || existsb (String.eqb text) no_strings
  then Str "No" else Str "Yes".

(** The frame [process_file] starts from. *)
Definition blank : DataFrame := DataFrame_columns MASTER_COLUMNS.

(** The two targets of the alias table that are not canonical columns. *)
Definition EXTRA_COLUMNS : list string :=
  [THEMATIC_FOCUS; IMPLEMENTATION_AGENCY].

(** The table of [df] under the fixed alias table, before the rows are
    filtered, in closed form. *)
Definition mapped_clim (df : DataFrame) : DataFrame :=
  let looped := assign_all df blank mapper_clim in
  if in_columns BUDGET_ALLOCATION df
  then {| index := index looped;
          columns := set_column (columns looped) BUDGET
                       (map classify (column_or_nan df BUDGET_ALLOCATION)) |}
  else looped.

(** A small source table, for the examples. *)
Definition sample_policy_table : DataFrame :=
  {| index := [0; 1; 2];
     columns :=
       [ ("Policy", [Str "Seed Act"; NaN; Str "Water Plan"]);
         ("Type of document (Policy; Program; Implementation plans; strategic plans, etc)",
           [Str "Act"; Str "Plan"; NaN]);
         ("Country", [Str "Kenya"; NaN; Str "Nepal"]);
         (BUDGET_ALLOCATION,
           [Str " Not specified"; NaN; Str "NO DEDICATED BUDGET"]);
         ("Notes", [Int 1; Int 2; Int 3]) ] |}.

(** A source table none of whose columns is named by the alias table. *)
Definition unmatched_table : DataFrame :=
  {| index := [0; 1];
     columns := [ ("Foo", [Str "a"; Str "b"]) ] |}.

(** A source table whose only column is one of the two extra targets. *)
Definition thematic_table : DataFrame :=
  {| index := [0];
     columns := [ (THEMATIC_FOCUS, [Str "forestry"]) ] |}.

(** A file that loads as the table [df]. *)
Definition loaded (file_name : string) (df : DataFrame) : UploadedFile :=
  {| name := file_name; read_excel := inr df |}.

(** [str.strip], on ASCII white space.  [process_file] never calls it; it is
    here to state the reading of the budget rule that trims the cell. *)
Definition is_space (c : ascii) : bool :=
  let n := nat_of_ascii c in
  (n =? 32) || ((9 <=? n) && (n <=? 13)).

Fixpoint lstrip (s : string) : string :=
  match s with
  | EmptyString => EmptyString
  | String c r => if is_space c then lstrip r else s
  end.

Fixpoint reverse (s acc : string) : string :=
  match s with
  | EmptyString => acc
  | String c r => reverse r (String c acc)
  end.

Definition strip (s : string) : string :=
  reverse (lstrip (reverse (lstrip s) EmptyString)) EmptyString.

(** The budget rule read with trimming: "No" for a missing or empty cell and
    for a cell whose trimmed, lowercased text is a negative phrase. *)
Definition classify_trimmed (c : cell) : cell :=
  if isna_cell c || String.eqb (str c) ""
     || existsb (String.eqb (lower (strip (str c)))) no_strings
  then Str "No" else Str "Yes".

(** A source table with a row that maps to nothing. *)
Definition country_table : DataFrame :=
  {| index := [0; 1];
     columns := [ ("Country", [Str "Kenya"; NaN]); ("Foo", [NaN; Str "x"]) ] |}.

(** Two tables of three and two rows, with identifiers of their own. *)
Definition table_a : DataFrame :=
  {| index := [0; 2; 5];
     columns := [ (SL_NO, [Int 7; Int 7; Int 9]);
                  ("Title", [Str "a1"; Str "a2"; Str "a3"]) ] |}.

Definition table_b : DataFrame :=
  {| index := [0; 1];
     columns := [ (SL_NO, [NaN; Int 1]);
                  ("Title", [Str "b1"; Str "b2"]) ] |}.

(** The master dataset of a sequence of tables, in closed form. *)
Definition assembled (frames : list DataFrame) : DataFrame :=
  let n := list_sum (map len frames) in
  {| index := seq 0 n;
     columns :=
       set_column (map (fun c => (c, flat_map (fun d => column_or_nan d c)
                                              frames))
                       (union_names frames))
                  SL_NO (range 1 (n + 1)) |}.

(** The file loads as a well-formed table, or does not load. *)
Definition file_ok (f : UploadedFile) : Prop :=
  match read_excel f with
  | inr df => well_formed df = true
  | inl _ => True
  end.

(** The table a file contributes to the batch: none when it does not load
    or when no row is left. *)
Definition usable_table (f : UploadedFile) : list DataFrame :=
  match read_excel f with
  | inr df =>
      match standardize df mapper_clim with
      | inr t => if empty t then [] else [t]
      | inl _ => []
      end
  | inl _ => []
  end.

Definition usable_tables (files : list UploadedFile) : list DataFrame :=
  flat_map usable_table files.

(** What the loop of [main] writes on the page for one file. *)
Definition file_log (f : UploadedFile) : Page :=
  st_write_processing (name f) ::
  match read_excel f with
  | inr df =>
      match standardize df mapper_clim with
      | inr t => if empty t then [st_warning (name f)]
                 else [st_success (len t) (name f)]
      | inl _ => []
      end
  | inl e => [st_error e; st_warning (name f)]
  end.

Definition batch_log (files : list UploadedFile) : Page :=
  flat_map file_log files.

Definition is_download (e : element) : bool :=
  match e with
  | st_download_button _ _ => true
  | _ => false
  end.

(** A file that does not load. *)
Definition broken (file_name : string) : UploadedFile :=
  {| name := file_name; read_excel := inl (ReadError "File is not a zip file") |}.

(** A batch of three files, the second of which does not load. *)
Definition sample_batch : list UploadedFile :=
  [ loaded "a.xlsx" sample_policy_table; broken "b.xlsx";
    loaded "c.xlsx" unmatched_table ].

(** The source column the budget step reads, if it runs: the outcome of its
    two tests on [budget_col_name]. *)
Definition budget_source (df : DataFrame) (mapper : Mapper) : option string :=
  match budget_col_name df mapper with
  | RStr col => if truthy col && in_columns col df then Some col else None
  | _ => None
  end.

(** The table of [df] under any alias table, before the rows are filtered,
    in closed form. *)
Definition mapped_table (df : DataFrame) (mapper : Mapper) : DataFrame :=
  let looped := assign_all df blank mapper in
  match budget_source df mapper with
  | Some col =>
      {| index := index looped;
         columns := set_column (columns looped) BUDGET
                      (map classify (column_or_nan df col)) |}
  | None => looped
  end.

(** All the names the rules of an alias table mention. *)
Definition alias_names (mapper : Mapper) : list string :=
  flat_map (fun item => candidate_names (snd item)) mapper.

(** Two source tables with the same row labels and the same columns under
    the given names. *)
Definition agree_on (names : list string) (df1 df2 : DataFrame) : Prop :=
  index df1 = index df2
  /\ forall c, In c names ->
               assoc c (columns df1) = assoc c (columns df2).

(** The file names of the "Processing" lines of a page, in order. *)
Definition announced (p : Page) : list string :=
  flat_map (fun e => match e with
                     | st_write_processing n => [n]
                     | _ => []
                     end) p.

(** The file names of the success and warning lines of a page, in order. *)
Definition verdicts (p : Page) : list string :=
  flat_map (fun e => match e with
                     | st_success _ n => [n]
                     | st_warning n => [n]
                     | _ => []
                     end) p.

(** The row counts of the success lines of a page, in order. *)
Definition success_rows (p : Page) : list nat :=
  flat_map (fun e => match e with
                     | st_success rows _ => [rows]
                     | _ => []
                     end) p.

(** An alias table without a rule for the budget field. *)
Definition title_only_mapper : Mapper := [ ("Title", RStr "Policy") ].

(** The sample table with another column order and without the column no
    rule names. *)
Definition sample_policy_table_trimmed : DataFrame :=
  {| index := [0; 1; 2];
     columns :=
       [ (BUDGET_ALLOCATION,
           [Str " Not specified"; NaN; Str "NO DEDICATED BUDGET"]);
         ("Country", [Str "Kenya"; NaN; Str "Nepal"]);
         ("Policy", [Str "Seed Act"; NaN; Str "Water Plan"]);
         ("Type of document (Policy; Program; Implementation plans; strategic plans, etc)",
           [Str "Act"; Str "Plan"; NaN]) ] |}.

(** A cell that is missing or empty: the marker or the empty text. *)
Definition is_missing (c : cell) : bool :=
  match c with
  | NaN => true
  | Str s => String.eqb s ""
  | Int _ => false
  end.

(** No cell of the frame is the empty text: [pd.read_excel] loads an empty
    text as the missing-value marker. *)
Definition no_empty_text (df : DataFrame) : bool :=
  forallb (fun col => forallb (fun c => negb (cell_eqb c (Str ""))) (snd col))
          (columns df).

(** The messages the loop of [main] writes. *)
Definition is_file_line (e : element) : bool :=
  match e with
  | st_write_processing _ | st_error _ | st_success _ _ | st_warning _ => true
  | _ => false
  end.

Fixpoint unique_keys (keys : list string) : bool :=
  match keys with
  | [] => true
  | k :: rest => negb (existsb (String.eqb k) rest) && unique_keys rest
  end.

(** ** Association lists and columns *)

Lemma existsb_eqb_In (k : string) (l : list string) :
  existsb (String.eqb k) l = true <-> In k l.
Proof.
  rewrite existsb_exists. split.
  - intros [x [Hin Heq]]. apply String.eqb_eq in Heq. now subst.
  - intros Hin. exists k. split; [assumption | apply String.eqb_refl].
Qed.

Lemma unique_keys_NoDup (keys : list string) :
  unique_keys keys = true -> NoDup keys.
Proof.
  induction keys as [|k rest IH]; simpl; intros H.
  - constructor.
  - apply andb_true_iff in H. destruct H as [Hk Hrest].
    constructor; [|now apply IH].
    intros Hin. apply existsb_eqb_In in Hin.
    rewrite Hin in Hk. discriminate.
Qed.

Lemma assoc_In {V : Type} (k : string) (l : list (string * V)) (v : V) :
  assoc k l = Some v -> In (k, v) l.
Proof.
  induction l as [|[k' v'] rest IH]; simpl; [discriminate|].
  destruct (String.eqb k k') eqn:E.
  - apply String.eqb_eq in E. intros [= ->]. subst. now left.
  - intros H. right. now apply IH.
Qed.

Lemma In_assoc_NoDup {V : Type} (k : string) (l : list (string * V)) (v : V) :
  NoDup (map fst l) -> In (k, v) l -> assoc k l = Some v.
Proof.
  induction l as [|[k' v'] rest IH]; simpl; [tauto|].
  intros Hnd [Heq | Hin].
  - inversion Heq; subst. now rewrite String.eqb_refl.
  - inversion Hnd as [|? ? Hnotin Hnd']; subst.
    destruct (String.eqb k k') eqn:E.
    + apply String.eqb_eq in E. subst. exfalso. apply Hnotin.
      change k' with (fst (k', v)). now apply in_map.
    + now apply IH.
Qed.

Lemma assoc_names {V : Type} (k : string) (l : list (string * V)) :
  existsb (String.eqb k) (map fst l) = true <-> exists v, assoc k l = Some v.
Proof.
  induction l as [|[k' v'] rest IH]; simpl.
  - split; [discriminate | intros [v H]; discriminate].
  - destruct (String.eqb k k'); simpl.
    + split; [intros _; now exists v' | reflexivity].
    + exact IH.
Qed.

Lemma in_columns_assoc (c : string) (df : DataFrame) :
  in_columns c df = true <-> exists vals, assoc c (columns df) = Some vals.
Proof. apply assoc_names. Qed.

Lemma assoc_set_column_same cols key vals :
  assoc key (set_column cols key vals) = Some vals.
Proof.
  induction cols as [|[k v] rest IH]; simpl.
  - now rewrite String.eqb_refl.
  - destruct (String.eqb key k) eqn:E; simpl; rewrite E; [reflexivity | exact IH].
Qed.

Lemma assoc_set_column_other cols key key' vals :
  key' <> key ->
  assoc key' (set_column cols key vals) = assoc key' cols.
Proof.
  intros Hne. induction cols as [|[k v] rest IH]; simpl.
  - apply String.eqb_neq in Hne. now rewrite Hne.
  - destruct (String.eqb key k) eqn:E; simpl.
    + apply String.eqb_eq in E. subst k.
      apply String.eqb_neq in Hne. now rewrite Hne.
    + now rewrite IH.
Qed.

Lemma names_set_column cols key vals :
  map fst (set_column cols key vals) = add_name (map fst cols) key.
Proof.
  unfold add_name. induction cols as [|[k v] rest IH]; simpl.
  - reflexivity.
  - destruct (String.eqb key k) eqn:E; simpl; [reflexivity|].
    rewrite IH. now destruct (existsb (String.eqb key) (map fst rest)).
Qed.

Lemma forallb_set_column (P : string * list cell -> bool) cols key vals :
  forallb P cols = true ->
  (forall k, P (k, vals) = true) ->
  forallb P (set_column cols key vals) = true.
Proof.
  intros Hcols Hnew. induction cols as [|[k v] rest IH]; simpl in *.
  - now rewrite Hnew.
  - apply andb_true_iff in Hcols. destruct Hcols as [Hk Hrest].
    destruct (String.eqb key k); simpl.
    + now rewrite Hnew, Hrest.
    + now rewrite Hk, IH.
Qed.

Lemma well_formed_assoc (df : DataFrame) (c : string) (vals : list cell) :
  well_formed df = true -> assoc c (columns df) = Some vals ->
  length vals = len df.
Proof.
  unfold well_formed. intros Hwf Hc. apply assoc_In in Hc.
  rewrite forallb_forall in Hwf. specialize (Hwf _ Hc).
  now apply Nat.eqb_eq in Hwf.
Qed.

Lemma index_eqb_refl (a : Index) : index_eqb a a = true.
Proof. unfold index_eqb. now destruct (list_eq_dec Nat.eq_dec a a). Qed.

(** ** The mapping loop *)

Section MappingLoop.

Variable df : DataFrame.
Hypothesis df_wf : well_formed df = true.

Lemma resolve_in_columns rule c :
  resolve df rule = Some c -> in_columns c df = true.
Proof.
  destruct rule as [|s|names]; simpl.
  - discriminate.
  - destruct (truthy s && in_columns s df) eqn:E; [|discriminate].
    intros [= <-]. now apply andb_true_iff in E.
  - intros H. now apply find_some in H.
Qed.

Lemma scan_candidates_find sdf target names :
  scan_candidates df sdf target names
  = match find (fun col => in_columns col df) names with
    | Some c =>
        value <- getitem df c ;;
        sdf' <- setitem_series sdf target value ;;
        ret (sdf', true)
    | None => ret (sdf, false)
    end.
Proof.
  induction names as [|c rest IH]; simpl; [reflexivity|].
  destruct (in_columns c df); [reflexivity | exact IH].
Qed.

Lemma getitem_present c :
  in_columns c df = true ->
  getitem df c
  = inr {| s_index := index df; s_values := column_or_nan df c |}.
Proof.
  intros H. apply in_columns_assoc in H. destruct H as [vals H].
  unfold getitem, column_or_nan. now rewrite H.
Qed.

Lemma ensure_valid_index_aligned sdf :
  aligned df sdf -> index (ensure_valid_index sdf (index df)) = index df.
Proof.
  unfold ensure_valid_index, len. intros [H | H]; rewrite H;
    destruct (index df) eqn:E; simpl; congruence.
Qed.

Lemma setitem_series_aligned sdf target c :
  aligned df sdf ->
  setitem_series sdf target
    {| s_index := index df; s_values := column_or_nan df c |}
  = inr (assign df sdf target (Some c)).
Proof.
  intros Hal. unfold setitem_series, assign. cbn [s_index s_values].
  rewrite (ensure_valid_index_aligned Hal), index_eqb_refl. reflexivity.
Qed.

Lemma map_column_assign sdf target rule :
  aligned df sdf ->
  map_column df sdf (target, rule)
  = inr (assign df sdf target (resolve df rule)).
Proof.
  intros Hal. destruct rule as [|s|names]; simpl.
  - reflexivity.
  - destruct (truthy s && in_columns s df) eqn:E; [|reflexivity].
    apply andb_true_iff in E. destruct E as [_ E].
    rewrite (getitem_present _ E). now apply setitem_series_aligned.
  - rewrite scan_candidates_find.
    destruct (find (fun col => in_columns col df) names) as [c|] eqn:E;
      [|reflexivity].
    apply find_some in E. destruct E as [_ E].
    rewrite (getitem_present _ E). cbn [bind Monad_Res].
    rewrite (setitem_series_aligned _ _ Hal). reflexivity.
Qed.

Lemma assign_aligned sdf target source :
  aligned df sdf -> aligned df (assign df sdf target source).
Proof.
  intros Hal. destruct source as [c|]; simpl.
  - right. now apply ensure_valid_index_aligned.
  - exact Hal.
Qed.

Lemma assign_all_aligned items sdf :
  aligned df sdf -> aligned df (assign_all df sdf items).
Proof.
  revert sdf. induction items as [|item rest IH]; intros sdf Hal; simpl.
  - exact Hal.
  - apply IH. now apply assign_aligned.
Qed.

Lemma map_columns_assign_all items sdf :
  aligned df sdf ->
  map_columns df sdf items = inr (assign_all df sdf items).
Proof.
  revert sdf. induction items as [|[target rule] rest IH]; intros sdf Hal.
  - reflexivity.
  - cbn [map_columns]. rewrite (map_column_assign _ _ Hal).
    cbn [bind Monad_Res]. rewrite IH by now apply assign_aligned.
    reflexivity.
Qed.

(** Column names: every assignment adds its key unless the frame has it. *)
Lemma ensure_valid_index_names sdf idx :
  column_names (ensure_valid_index sdf idx) = column_names sdf.
Proof.
  unfold ensure_valid_index, column_names.
  destruct ((len sdf =? 0) && (0 <? length idx)); [|reflexivity].
  cbn [columns]. rewrite map_map. reflexivity.
Qed.

Lemma assign_names sdf target source :
  column_names (assign df sdf target source)
  = add_name (column_names sdf) target.
Proof.
  destruct source as [c|]; unfold assign, setitem_scalar, column_names;
    cbn [columns]; rewrite names_set_column; [|reflexivity].
  f_equal. apply ensure_valid_index_names.
Qed.

Lemma assign_all_names items sdf :
  column_names (assign_all df sdf items)
  = fold_left add_name (map fst items) (column_names sdf).
Proof.
  revert sdf. induction items as [|item rest IH]; intros sdf.
  - reflexivity.
  - change (assign_all df sdf (item :: rest))
      with (assign_all df (assign df sdf (fst item) (resolve df (snd item)))
                       rest).
    rewrite IH, assign_names. reflexivity.
Qed.

(** Well-formedness. *)
Lemma ensure_valid_index_wf sdf idx :
  well_formed sdf = true -> well_formed (ensure_valid_index sdf idx) = true.
Proof.
  unfold ensure_valid_index.
  destruct ((len sdf =? 0) && (0 <? length idx)); [|trivial].
  intros _. unfold well_formed, len. cbn [index columns].
  apply forallb_forall. intros col Hin. apply in_map_iff in Hin.
  destruct Hin as [col' [<- _]]. cbn [snd].
  rewrite repeat_length. apply Nat.eqb_refl.
Qed.

Lemma assign_wf sdf target source :
  aligned df sdf -> well_formed sdf = true ->
  well_formed (assign df sdf target source) = true.
Proof.
  intros Hal Hwf. destruct source as [c|]; unfold assign.
  - unfold well_formed, len. cbn [index columns].
    apply forallb_set_column.
    + apply ensure_valid_index_wf. exact Hwf.
    + intros k. cbn [snd]. rewrite (ensure_valid_index_aligned Hal).
      apply Nat.eqb_eq. unfold column_or_nan.
      destruct (assoc c (columns df)) as [vals|] eqn:E.
      * now apply well_formed_assoc with (c := c).
      * apply repeat_length.
  - unfold setitem_scalar, well_formed, len. cbn [index columns].
    apply forallb_set_column; [exact Hwf|].
    intros k. cbn [snd]. rewrite repeat_length. apply Nat.eqb_refl.
Qed.

Lemma assign_all_wf items sdf :
  aligned df sdf -> well_formed sdf = true ->
  well_formed (assign_all df sdf items) = true.
Proof.
  revert sdf. induction items as [|item rest IH]; intros sdf Hal Hwf; simpl.
  - exact Hwf.
  - apply IH; [now apply assign_aligned | now apply assign_wf].
Qed.

(** Row labels after the loop. *)
Lemma assign_all_index items sdf :
  aligned df sdf ->
  index (assign_all df sdf items)
  = if some_resolved df items then index df else index sdf.
Proof.
  revert sdf. induction items as [|[target rule] rest IH]; intros sdf Hal.
  - reflexivity.
  - change (assign_all df sdf ((target, rule) :: rest))
      with (assign_all df (assign df sdf target (resolve df rule)) rest).
    rewrite IH by now apply assign_aligned.
    change (some_resolved df ((target, rule) :: rest))
      with ((match resolve df rule with Some _ => true | None => false end)
            || some_resolved df rest).
    destruct (resolve df rule) as [c|] eqn:E; cbn [orb].
    + cbn [assign index]. rewrite (ensure_valid_index_aligned Hal).
      now destruct (some_resolved df rest).
    + reflexivity.
Qed.

(** The column of a target once its rule has been applied, and through the
    later rounds of the loop. *)
Lemma assign_settles sdf target source :
  aligned df sdf ->
  column_settled df (assign df sdf target source) target source.
Proof.
  intros Hal. unfold column_settled. destruct source as [c|].
  - cbn [assign columns index]. rewrite assoc_set_column_same.
    split; [reflexivity|]. intros _. now apply ensure_valid_index_aligned.
  - cbn [assign setitem_scalar columns index].
    rewrite assoc_set_column_same. split; [reflexivity | congruence].
Qed.

Lemma assoc_map_values (f : string * list cell -> list cell) cols key vals :
  assoc key cols = Some vals ->
  assoc key (map (fun col => (fst col, f col)) cols) = Some (f (key, vals)).
Proof.
  induction cols as [|[k v] rest IH]; simpl; [discriminate|].
  destruct (String.eqb key k) eqn:E.
  - apply String.eqb_eq in E. subst k. now intros [= ->].
  - exact IH.
Qed.

Lemma assign_keeps_settled sdf target source target' source' :
  target' <> target -> aligned df sdf ->
  column_settled df sdf target' source' ->
  column_settled df (assign df sdf target source) target' source'.
Proof.
  intros Hne Hal [Hcol Hidx]. unfold column_settled.
  destruct source as [c|].
  - cbn [assign columns index].
    rewrite (assoc_set_column_other _ _ Hne).
    rewrite (ensure_valid_index_aligned Hal).
    split; [|reflexivity].
    unfold ensure_valid_index.
    destruct ((len sdf =? 0) && (0 <? length (index df))) eqn:E.
    + apply andb_true_iff in E. destruct E as [E0 Epos].
      apply Nat.eqb_eq in E0. apply Nat.ltb_lt in Epos.
      cbn [columns].
      rewrite (assoc_map_values (fun _ => repeat NaN (length (index df)))
                 _ _ Hcol).
      destruct source' as [c'|].
      * unfold len in E0. rewrite Hidx in E0 by congruence. lia.
      * reflexivity.
    + rewrite Hcol. destruct source' as [c'|]; [reflexivity|].
      unfold expected_column, len. cbn [index].
      destruct Hal as [Hal | Hal]; [|now rewrite Hal].
      apply andb_false_iff in E. unfold len in E. rewrite Hal in *.
      destruct E as [E | E]; [discriminate|].
      apply Nat.ltb_ge in E. cbn [length] in *.
      now replace (length (index df)) with 0 by lia.
  - cbn [assign setitem_scalar columns index].
    rewrite (assoc_set_column_other _ _ Hne). split; assumption.
Qed.

Lemma assign_all_keeps_settled items sdf target' source' :
  ~ In target' (map fst items) -> aligned df sdf ->
  column_settled df sdf target' source' ->
  column_settled df (assign_all df sdf items) target' source'.
Proof.
  revert sdf. induction items as [|[target rule] rest IH];
    intros sdf Hnotin Hal Hset.
  - exact Hset.
  - cbn [map fst In] in Hnotin.
    change (assign_all df sdf ((target, rule) :: rest))
      with (assign_all df (assign df sdf target (resolve df rule)) rest).
    apply IH; [tauto | now apply assign_aligned |].
    apply assign_keeps_settled; [|assumption..].
    intros ->. tauto.
Qed.

Lemma assign_all_settles items sdf target rule :
  NoDup (map fst items) -> aligned df sdf -> In (target, rule) items ->
  column_settled df (assign_all df sdf items) target (resolve df rule).
Proof.
  revert sdf. induction items as [|[target0 rule0] rest IH];
    intros sdf Hnd Hal Hin; [contradiction|].
  cbn [map fst] in Hnd. inversion Hnd as [|? ? Hnotin Hnd']; subst.
  change (assign_all df sdf ((target0, rule0) :: rest))
    with (assign_all df (assign df sdf target0 (resolve df rule0)) rest).
  destruct Hin as [Heq | Hin].
  - inversion Heq; subst.
    apply assign_all_keeps_settled;
      [assumption | now apply assign_aligned | now apply assign_settles].
  - apply IH; [assumption | now apply assign_aligned | assumption].
Qed.

End MappingLoop.

(** ** The fixed alias table *)

Unset Implicit Arguments.

Lemma mapper_clim_keys : NoDup (map fst mapper_clim).
Proof. apply unique_keys_NoDup. vm_compute. reflexivity. Qed.

Lemma mapper_clim_truthy : names_truthy mapper_clim = true.
Proof. vm_compute. reflexivity. Qed.

Lemma mapper_clim_names :
  fold_left add_name (map fst mapper_clim) MASTER_COLUMNS
  = MASTER_COLUMNS ++ EXTRA_COLUMNS.
Proof. vm_compute. reflexivity. Qed.

Lemma mapper_clim_budget : mapper_get mapper_clim BUDGET = RStr BUDGET_ALLOCATION.
Proof. vm_compute. reflexivity. Qed.

Lemma canonical_has_rule (target : string) :
  In target MASTER_COLUMNS ->
  In (target, mapper_get mapper_clim target) mapper_clim.
Proof.
  intros H. apply assoc_In. unfold mapper_get.
  assert (E : existsb (String.eqb target) (map fst mapper_clim) = true).
  { apply existsb_eqb_In.
    assert (Hincl : forallb (fun c => existsb (String.eqb c)
                                              (map fst mapper_clim))
                            MASTER_COLUMNS = true)
      by (vm_compute; reflexivity).
    rewrite forallb_forall in Hincl. apply existsb_eqb_In. now apply Hincl. }
  apply assoc_names in E. destruct E as [rule E]. now rewrite E.
Qed.

Lemma blank_aligned (df : DataFrame) : aligned df blank.
Proof. now left. Qed.

Lemma blank_wf : well_formed blank = true.
Proof. vm_compute. reflexivity. Qed.

Lemma resolve_candidates (df : DataFrame) (rule : alias_rule) :
  (match rule with RStr s => truthy s | _ => true end) = true ->
  (match resolve df rule with Some _ => true | None => false end)
  = existsb (fun col => in_columns col df) (candidate_names rule).
Proof.
  destruct rule as [|s|names]; simpl.
  - reflexivity.
  - intros ->. simpl. now destruct (in_columns s df).
  - intros _. induction names as [|c rest IH]; simpl; [reflexivity|].
    now destruct (in_columns c df).
Qed.

Lemma some_resolved_present (df : DataFrame) (mapper : Mapper) :
  names_truthy mapper = true ->
  some_resolved df mapper = some_alias_present df mapper.
Proof.
  unfold names_truthy, some_resolved, some_alias_present.
  induction mapper as [|[target rule] rest IH]; simpl; [reflexivity|].
  intros H. apply andb_true_iff in H. destruct H as [Hrule Hrest].
  rewrite (resolve_candidates df rule Hrule), IH by assumption. reflexivity.
Qed.

(** ** The budget normalizer *)

Lemma map_combine_maps {A B C D : Type} (f : B * C -> D) (g : A -> B)
  (h : A -> C) (l : list A) :
  map f (combine (map g l) (map h l)) = map (fun x => f (g x, h x)) l.
Proof. induction l as [|x l IH]; simpl; [reflexivity | now rewrite IH]. Qed.

Lemma yes_no_classify (original_budget : Series cell) :
  yes_no original_budget = map classify (s_values original_budget).
Proof.
  unfold yes_no, np_where, Series_or, isna, eq_scalar, isin, str_lower,
    astype_str, fillna, Series_map. cbn [s_values s_index].
  rewrite !map_map, map_combine_maps. cbn [fst snd].
  rewrite map_combine_maps. cbn [fst snd].
  apply map_ext. intros c. reflexivity.
Qed.

Lemma ensure_valid_index_same_length (t : DataFrame) (idx : Index) :
  length idx = len t -> ensure_valid_index t idx = t.
Proof.
  intros H. unfold ensure_valid_index. rewrite H.
  destruct (len t); reflexivity.
Qed.

Lemma setitem_array_same_length (t : DataFrame) (key : string)
  (value : list cell) :
  length value = len t ->
  setitem_array t key value
  = inr {| index := index t; columns := set_column (columns t) key value |}.
Proof.
  intros H. unfold setitem_array.
  rewrite ensure_valid_index_same_length by now rewrite length_seq.
  rewrite H, Nat.eqb_refl. reflexivity.
Qed.

Lemma column_or_nan_length (df : DataFrame) (c : string) :
  well_formed df = true -> length (column_or_nan df c) = len df.
Proof.
  intros Hwf. unfold column_or_nan.
  destruct (assoc c (columns df)) as [vals|] eqn:E.
  - now apply well_formed_assoc with (c := c).
  - apply repeat_length.
Qed.

Lemma budget_rule_in_table : In (BUDGET, RStr BUDGET_ALLOCATION) mapper_clim.
Proof. apply assoc_In. vm_compute. reflexivity. Qed.

Lemma resolve_budget_present (df : DataFrame) :
  in_columns BUDGET_ALLOCATION df = true ->
  resolve df (RStr BUDGET_ALLOCATION) = Some BUDGET_ALLOCATION.
Proof.
  intros H. unfold resolve. rewrite H.
  change (truthy BUDGET_ALLOCATION) with true. reflexivity.
Qed.

Lemma resolve_budget_absent (df : DataFrame) :
  in_columns BUDGET_ALLOCATION df = false ->
  resolve df (RStr BUDGET_ALLOCATION) = None.
Proof.
  intros H. unfold resolve. rewrite H.
  change (truthy BUDGET_ALLOCATION) with true. reflexivity.
Qed.

(** Once the budget column is found, the looped frame has the rows of
    [df]. *)
Lemma looped_index_budget (df : DataFrame) :
  in_columns BUDGET_ALLOCATION df = true ->
  index (assign_all df blank mapper_clim) = index df.
Proof.
  intros H.
  destruct (@assign_all_settles df mapper_clim blank BUDGET
              (RStr BUDGET_ALLOCATION) mapper_clim_keys (blank_aligned df)
              budget_rule_in_table) as [_ Hidx].
  apply Hidx. rewrite resolve_budget_present by exact H. discriminate.
Qed.

(** [process_file] never raises on a well-formed table, and its table before
    the row filter is [mapped_clim]. *)
Lemma mapped_closed_form (df : DataFrame) :
  well_formed df = true -> mapped df mapper_clim = inr (mapped_clim df).
Proof.
  intros Hwf. unfold mapped.
  change (DataFrame_columns MASTER_COLUMNS) with blank.
  rewrite (map_columns_assign_all mapper_clim (blank_aligned df)).
  cbn [bind Monad_Res].
  unfold normalize_budget, budget_col_name, mapped_clim.
  rewrite mapper_clim_budget.
  change (truthy BUDGET_ALLOCATION) with true. cbn [andb].
  destruct (in_columns BUDGET_ALLOCATION df) eqn:E; [|reflexivity].
  rewrite (getitem_present df BUDGET_ALLOCATION E). cbn [bind Monad_Res].
  rewrite yes_no_classify. cbn [s_values].
  apply setitem_array_same_length.
  rewrite length_map, column_or_nan_length by exact Hwf.
  unfold len. now rewrite looped_index_budget.
Qed.

Lemma standardize_closed_form (df : DataFrame) :
  well_formed df = true ->
  standardize df mapper_clim = inr (dropna_all (mapped_clim df)).
Proof.
  intros Hwf. unfold standardize. now rewrite mapped_closed_form.
Qed.

Lemma add_name_present (names : list string) (key : string) :
  In key names -> add_name names key = names.
Proof.
  intros H. unfold add_name. apply existsb_eqb_In in H. now rewrite H.
Qed.

Lemma looped_names (df : DataFrame) :
  column_names (assign_all df blank mapper_clim)
  = MASTER_COLUMNS ++ EXTRA_COLUMNS.
Proof.
  rewrite assign_all_names.
  replace (column_names blank) with MASTER_COLUMNS
    by (vm_compute; reflexivity).
  apply mapper_clim_names.
Qed.

Lemma mapped_clim_names (df : DataFrame) :
  column_names (mapped_clim df) = MASTER_COLUMNS ++ EXTRA_COLUMNS.
Proof.
  unfold mapped_clim.
  destruct (in_columns BUDGET_ALLOCATION df); [|apply looped_names].
  unfold column_names. cbn [columns]. rewrite names_set_column.
  fold (column_names (assign_all df blank mapper_clim)).
  rewrite looped_names. apply add_name_present.
  vm_compute. tauto.
Qed.

Lemma mapped_clim_index (df : DataFrame) :
  index (mapped_clim df)
  = if some_alias_present df mapper_clim then index df else [].
Proof.
  rewrite <- some_resolved_present by exact mapper_clim_truthy.
  change (@nil nat) with (index blank).
  rewrite <- assign_all_index by apply blank_aligned.
  unfold mapped_clim. now destruct (in_columns BUDGET_ALLOCATION df).
Qed.

Lemma mapped_clim_wf (df : DataFrame) :
  well_formed df = true -> well_formed (mapped_clim df) = true.
Proof.
  intros Hwf.
  assert (Hl : well_formed (assign_all df blank mapper_clim) = true)
    by (apply assign_all_wf; [exact Hwf | apply blank_aligned | exact blank_wf]).
  unfold mapped_clim.
  destruct (in_columns BUDGET_ALLOCATION df) eqn:E; [|exact Hl].
  unfold well_formed, len. cbn [index columns].
  apply forallb_set_column; [exact Hl|].
  intros k. cbn [snd]. apply Nat.eqb_eq.
  rewrite length_map, column_or_nan_length by exact Hwf.
  unfold len. now rewrite looped_index_budget.
Qed.

Lemma find_first_present (df : DataFrame) (before after : list string)
  (col : string) :
  (forall c, In c before -> in_columns c df = false) ->
  in_columns col df = true ->
  find (fun c => in_columns c df) (before ++ col :: after) = Some col.
Proof.
  intros Hbefore Hcol. induction before as [|b rest IH]; simpl.
  - now rewrite Hcol.
  - rewrite (Hbefore b) by now left.
    apply IH. intros c Hc. apply Hbefore. now right.
Qed.

Lemma find_none_present (df : DataFrame) (names : list string) :
  (forall c, In c names -> in_columns c df = false) ->
  find (fun c => in_columns c df) names = None.
Proof.
  intros H. induction names as [|b rest IH]; simpl; [reflexivity|].
  rewrite (H b) by now left. apply IH. intros c Hc. apply H. now right.
Qed.

Lemma settled_getitem (df sdf : DataFrame) (target : string)
  (source : option string) :
  column_settled df sdf target source ->
  match source with
  | Some col =>
      in_columns col df = true -> getitem sdf target = getitem df col
  | None => all_missing sdf target
  end.
Proof.
  intros [Hcol Hidx]. destruct source as [col|].
  - intros Hin. rewrite (getitem_present df col Hin).
    unfold getitem. rewrite Hcol. cbn [ret Monad_Res expected_column].
    now rewrite Hidx.
  - unfold all_missing, getitem. now rewrite Hcol.
Qed.

(** ** The column mapper *)

(** C1: for every source table and every canonical field, after the mapping
    loop of [process_file] the field holds missing-value markers when its
    alias rule is absent; the values of the source column when the rule is a
    single name that is a column of the source, and missing-value markers
    when it is not; and, when the rule is a list of candidates, the values of
    the first candidate that is a column of the source, whatever candidates
    follow it, and missing-value markers when no candidate is one. *)
Theorem mapping_loop_alias_rules (df : DataFrame) (target : string) :
  In target MASTER_COLUMNS ->
  exists standardized_df,
    map_columns df (DataFrame_columns MASTER_COLUMNS) mapper_clim
    = inr standardized_df
    /\ match mapper_get mapper_clim target with
       | RNone => all_missing standardized_df target
       | RStr source_col =>
           if in_columns source_col df
           then getitem standardized_df target = getitem df source_col
           else all_missing standardized_df target
       | RList names =>
           (forall before col after,
              names = before ++ col :: after ->
              (forall c, In c before -> in_columns c df = false) ->
              in_columns col df = true ->
              getitem standardized_df target = getitem df col)
           /\ ((forall c, In c names -> in_columns c df = false) ->
               all_missing standardized_df target)
       end.
Proof.
  intros Htarget. exists (assign_all df blank mapper_clim). split.
  - apply map_columns_assign_all. apply blank_aligned.
  - apply canonical_has_rule in Htarget.
    pose proof (@assign_all_settles df mapper_clim blank target
                  (mapper_get mapper_clim target) mapper_clim_keys
                  (blank_aligned df) Htarget) as Hset.
    apply settled_getitem in Hset.
    destruct (mapper_get mapper_clim target) as [|source_col|names] eqn:Erule.
    + exact Hset.
    + assert (Htruthy : truthy source_col = true).
      { pose proof mapper_clim_truthy as Ht. unfold names_truthy in Ht.
        rewrite forallb_forall in Ht. exact (Ht _ Htarget). }
      cbn [resolve] in Hset. rewrite Htruthy in Hset. cbn [andb] in Hset.
      destruct (in_columns source_col df) eqn:E; [now apply Hset | exact Hset].
    + cbn [resolve] in Hset. split.
      * intros before col after -> Hbefore Hcol.
        rewrite (find_first_present df before after col Hbefore Hcol) in Hset.
        now apply Hset.
      * intros Hnone. now rewrite (find_none_present df names Hnone) in Hset.
Qed.

Lemma mapping_loop_alias_rules_witness :
  In "Title" MASTER_COLUMNS /\
  exists standardized_df,
    map_columns sample_policy_table (DataFrame_columns MASTER_COLUMNS)
                mapper_clim
    = inr standardized_df
    /\ getitem standardized_df "Title"
       = inr {| s_index := [0; 1; 2];
                s_values := [Str "Act"; Str "Plan"; NaN] |}.
Proof.
  assert (Htitle : In "Title" MASTER_COLUMNS) by (vm_compute; tauto).
  split; [exact Htitle|].
  destruct (mapping_loop_alias_rules sample_policy_table "Title" Htitle)
    as [sdf [Hrun Hrule]].
  - exists sdf. split; [exact Hrun|].
    change (mapper_get mapper_clim "Title")
      with (RList ["Type of document (Policy; Program; Implementation plans; strategic plans, etc)"; "Policy"])
      in Hrule.
    destruct Hrule as [Hfirst _].
    rewrite (Hfirst [] _ ["Policy"] eq_refl).
    + reflexivity.
    + intros c [].
    + reflexivity.
Defined.

Lemma dropna_all_names (t : DataFrame) :
  column_names (dropna_all t) = column_names t.
Proof.
  unfold column_names, dropna_all. cbn [columns]. rewrite map_map.
  reflexivity.
Qed.

Lemma process_file_loaded (file_obj : UploadedFile) (df : DataFrame)
  (page : Page) :
  read_excel file_obj = inr df -> well_formed df = true ->
  process_file file_obj mapper_clim page
  = (inr (Some (dropna_all (mapped_clim df))), page).
Proof.
  intros Hread Hwf. unfold process_file. rewrite Hread.
  cbn [bind Monad_App lift]. rewrite standardize_closed_form by exact Hwf.
  reflexivity.
Qed.

(** C3, as stated, fails: the table [process_file] returns for the sample
    source has 20 columns, two of them outside the canonical set. *)
Lemma canonical_columns_only_counterexample :
  exists t,
    process_file (loaded "sample.xlsx" sample_policy_table) mapper_clim []
    = (inr (Some t), [])
    /\ column_names t <> MASTER_COLUMNS
    /\ In THEMATIC_FOCUS (column_names t)
    /\ ~ In THEMATIC_FOCUS MASTER_COLUMNS.
Proof.
  eexists. split; [vm_compute; reflexivity|].
  split; [|split].
  - vm_compute. discriminate.
  - vm_compute. tauto.
  - vm_compute. intros H.
    repeat (destruct H as [H | H]; [discriminate H|]). exact H.
Qed.

(** C3, amended: for every source table, the table [process_file] returns
    has the 18 canonical columns in registry order, followed by the two
    other targets of the alias table (the thematic-focus and the
    implementation-agency columns), and no other column. *)
Theorem process_file_columns (file_obj : UploadedFile) (df : DataFrame)
  (page : Page) :
  read_excel file_obj = inr df -> well_formed df = true ->
  exists t,
    process_file file_obj mapper_clim page = (inr (Some t), page)
    /\ column_names t = MASTER_COLUMNS ++ EXTRA_COLUMNS.
Proof.
  intros Hread Hwf. exists (dropna_all (mapped_clim df)). split.
  - now apply process_file_loaded.
  - rewrite dropna_all_names. apply mapped_clim_names.
Qed.

Lemma process_file_columns_witness :
  read_excel (loaded "sample.xlsx" sample_policy_table)
  = inr sample_policy_table
  /\ well_formed sample_policy_table = true
  /\ exists t,
       process_file (loaded "sample.xlsx" sample_policy_table) mapper_clim []
       = (inr (Some t), [])
       /\ column_names t = MASTER_COLUMNS ++ EXTRA_COLUMNS.
Proof.
  split; [reflexivity|]. split; [reflexivity|].
  apply (process_file_columns (loaded "sample.xlsx" sample_policy_table)
           sample_policy_table []); reflexivity.
Defined.

(** C7, as stated, fails: a source table with two rows, none of whose columns
    is named by the alias table, gives a table without rows at the end of the
    mapping phase. *)
Lemma mapping_row_count_counterexample :
  len unmatched_table = 2
  /\ exists t, mapped unmatched_table mapper_clim = inr t /\ len t = 0.
Proof.
  split; [reflexivity|]. eexists. split; vm_compute; reflexivity.
Qed.

(** C7, amended: for every source table, the table at the end of the mapping
    phase (after the loop, and after the budget step, before the rows are
    filtered) has as many rows as the source table when some name of the
    alias table is a column of the source; when none is, it has no rows. *)
Theorem mapping_row_count (df : DataFrame) :
  well_formed df = true ->
  exists looped t,
    map_columns df (DataFrame_columns MASTER_COLUMNS) mapper_clim = inr looped
    /\ mapped df mapper_clim = inr t
    /\ len looped = (if some_alias_present df mapper_clim then len df else 0)
    /\ len t = (if some_alias_present df mapper_clim then len df else 0).
Proof.
  intros Hwf.
  exists (assign_all df blank mapper_clim), (mapped_clim df).
  split; [apply map_columns_assign_all, blank_aligned|].
  split; [now apply mapped_closed_form|].
  assert (Hlen : len (mapped_clim df)
                 = if some_alias_present df mapper_clim then len df else 0).
  { unfold len. rewrite mapped_clim_index.
    now destruct (some_alias_present df mapper_clim). }
  split; [|exact Hlen].
  rewrite <- Hlen. unfold len, mapped_clim.
  now destruct (in_columns BUDGET_ALLOCATION df).
Qed.

Lemma mapping_row_count_witness :
  well_formed sample_policy_table = true
  /\ exists looped t,
       map_columns sample_policy_table (DataFrame_columns MASTER_COLUMNS)
                   mapper_clim = inr looped
       /\ mapped sample_policy_table mapper_clim = inr t
       /\ len looped = 3 /\ len t = 3.
Proof.
  split; [reflexivity|].
  apply (mapping_row_count sample_policy_table). reflexivity.
Defined.

(** ** The row filter *)

Lemma select_Forall {A : Type} (P : A -> Prop) (mask : list bool)
  (l : list A) :
  Forall P l -> Forall P (select mask l).
Proof.
  intros H. revert mask. induction H as [|x l Hx Hl IH]; intros mask.
  - destruct mask; constructor.
  - destruct mask as [|b mask]; [constructor|]. simpl.
    destruct b; [constructor; [exact Hx | apply IH] | apply IH].
Qed.

Lemma select_length {A B : Type} (mask : list bool) (l : list A)
  (l' : list B) :
  length l = length l' ->
  length (select mask l) = length (select mask l').
Proof.
  revert l l'. induction mask as [|b mask IH]; intros l l' H.
  - reflexivity.
  - destruct l as [|x l], l' as [|y l']; simpl in *; try discriminate;
      [reflexivity|].
    destruct b; simpl; auto.
Qed.

Lemma select_all {A : Type} (l : list A) :
  select (repeat true (length l)) l = l.
Proof. induction l as [|x l IH]; simpl; [reflexivity | now rewrite IH]. Qed.

Lemma map_all_true {A : Type} (f : A -> bool) (l : list A) :
  (forall x, In x l -> f x = true) -> map f l = repeat true (length l).
Proof.
  intros H. induction l as [|x l IH]; simpl; [reflexivity|].
  rewrite (H x) by now left. f_equal. apply IH.
  intros y Hy. apply H. now right.
Qed.

Lemma dropna_all_wf (t : DataFrame) :
  well_formed t = true -> well_formed (dropna_all t) = true.
Proof.
  unfold well_formed, dropna_all, len. cbn [index columns]. intros Hwf.
  rewrite forallb_forall in *. intros col Hin.
  apply in_map_iff in Hin. destruct Hin as [col' [<- Hin]]. cbn [snd].
  apply Nat.eqb_eq, select_length. apply Nat.eqb_eq. now apply Hwf.
Qed.

Lemma dropna_all_column (t : DataFrame) (key : string) (vals : list cell) :
  assoc key (columns t) = Some vals ->
  assoc key (columns (dropna_all t)) = Some (select (row_mask t) vals).
Proof.
  intros H. unfold dropna_all. cbn [columns].
  now rewrite (assoc_map_values (fun col => select (row_mask t) (snd col))
                 _ _ H).
Qed.

(** A frame with a column that is nowhere [np.nan] loses no row. *)
Lemma dropna_all_full_column (t : DataFrame) (key : string)
  (vals : list cell) :
  well_formed t = true ->
  assoc key (columns t) = Some vals ->
  Forall (fun c => notna_cell c = true) vals ->
  dropna_all t = t.
Proof.
  intros Hwf Hkey Hfull.
  assert (Hmask : row_mask t = repeat true (len t)).
  { unfold row_mask.
    replace (repeat true (len t))
      with (repeat true (length (seq 0 (len t))))
      by now rewrite length_seq.
    apply map_all_true. intros i Hi. apply in_seq in Hi.
    apply existsb_exists. exists (key, vals). split.
    - now apply assoc_In.
    - cbn [snd]. rewrite Forall_forall in Hfull. apply Hfull.
      apply nth_In. rewrite (@well_formed_assoc t key vals Hwf Hkey). lia. }
  unfold dropna_all. rewrite Hmask. destruct t as [idx cols].
  unfold len. cbn [index columns] in *. f_equal.
  - apply select_all.
  - rewrite <- (map_id cols) at 2. apply map_ext_in.
    intros [k v] Hin. cbn [fst snd]. f_equal.
    unfold well_formed, len in Hwf. cbn [index columns] in Hwf.
    rewrite forallb_forall in Hwf. specialize (Hwf _ Hin).
    apply Nat.eqb_eq in Hwf. cbn [snd] in Hwf. rewrite <- Hwf.
    apply select_all.
Qed.

(** ** The budget column of the mapped table *)

Lemma mapped_clim_budget_present (df : DataFrame) :
  in_columns BUDGET_ALLOCATION df = true ->
  index (mapped_clim df) = index df
  /\ assoc BUDGET (columns (mapped_clim df))
     = Some (map classify (column_or_nan df BUDGET_ALLOCATION)).
Proof.
  intros H. unfold mapped_clim. rewrite H. cbn [index columns]. split.
  - now apply looped_index_budget.
  - apply assoc_set_column_same.
Qed.

Lemma mapped_clim_budget_absent (df : DataFrame) :
  in_columns BUDGET_ALLOCATION df = false ->
  assoc BUDGET (columns (mapped_clim df))
  = Some (repeat NaN (len (mapped_clim df))).
Proof.
  intros H. unfold mapped_clim. rewrite H.
  destruct (@assign_all_settles df mapper_clim blank BUDGET
              (RStr BUDGET_ALLOCATION) mapper_clim_keys (blank_aligned df)
              budget_rule_in_table) as [Hcol _].
  rewrite (resolve_budget_absent df H) in Hcol. exact Hcol.
Qed.

Lemma lower_empty (s : string) : lower s = "" <-> s = "".
Proof. destruct s; simpl; split; intros H; try reflexivity; discriminate. Qed.

Lemma classify_values (c : cell) :
  classify c = Str "No" \/ classify c = Str "Yes".
Proof.
  unfold classify.
  destruct (isna_cell c || _ || _); [now left | now right].
Qed.

Lemma classify_notna (c : cell) : notna_cell (classify c) = true.
Proof. destruct (classify_values c) as [-> | ->]; reflexivity. Qed.

Lemma classify_no (c : cell) :
  classify c = Str "No"
  <-> c = NaN \/ str c = "" \/ In (lower (str c)) no_strings.
Proof.
  assert (Hgen : forall c', isna_cell c' = false ->
            (classify c' = Str "No"
             <-> str c' = "" \/ In (lower (str c')) no_strings)).
  { intros c' Hna. unfold classify. rewrite Hna. cbn [orb].
    rewrite <- lower_empty, <- String.eqb_eq, <- existsb_eqb_In.
    destruct (String.eqb (lower (str c')) ""); cbn [orb];
      [split; auto|].
    destruct (existsb (String.eqb (lower (str c'))) no_strings);
      split; auto.
    - intros H. discriminate H.
    - intros [H | H]; discriminate H. }
  destruct c as [|s|z].
  - split; [now left | reflexivity].
  - rewrite Hgen by reflexivity. split; [auto|].
    intros [H | H]; [discriminate H | exact H].
  - rewrite Hgen by reflexivity. split; [auto|].
    intros [H | H]; [discriminate H | exact H].
Qed.

Lemma classify_case (s s' : string) :
  lower s = lower s' -> classify (Str s) = classify (Str s').
Proof. intros H. unfold classify. cbn [isna_cell str]. now rewrite H. Qed.

(** ** The budget normalizer and the rows it keeps *)

(** With the backing column present, no row is filtered out and the budget
    field is the row-wise classification of that column. *)
Lemma process_file_budget_present (file_obj : UploadedFile) (df : DataFrame)
  (page : Page) :
  read_excel file_obj = inr df -> well_formed df = true ->
  in_columns BUDGET_ALLOCATION df = true ->
  process_file file_obj mapper_clim page = (inr (Some (mapped_clim df)), page)
  /\ index (mapped_clim df) = index df
  /\ getitem (mapped_clim df) BUDGET
     = inr {| s_index := index df;
              s_values := map classify (column_or_nan df BUDGET_ALLOCATION) |}.
Proof.
  intros Hread Hwf E.
  destruct (mapped_clim_budget_present df E) as [Hidx Hcol].
  assert (Hkeep : dropna_all (mapped_clim df) = mapped_clim df).
  { apply (dropna_all_full_column _ BUDGET _ (mapped_clim_wf df Hwf) Hcol).
    apply Forall_forall. intros c Hc. apply in_map_iff in Hc.
    destruct Hc as [c' [<- _]]. apply classify_notna. }
  split; [rewrite <- Hkeep at 1; now apply process_file_loaded|].
  split; [exact Hidx|].
  unfold getitem. now rewrite Hcol, Hidx.
Qed.

(** C6: for every source table in which no name of the budget field's alias
    rule is a column, the normalizer leaves the table as the mapping loop
    made it, and the budget field of the table [process_file] returns holds
    the missing-value marker on every row, not "Yes" or "No". *)
Theorem budget_unresolved_stays_missing (file_obj : UploadedFile)
  (df : DataFrame) (page : Page) :
  read_excel file_obj = inr df -> well_formed df = true ->
  (forall col, In col (candidate_names (mapper_get mapper_clim BUDGET)) ->
               in_columns col df = false) ->
  (forall standardized_df,
      normalize_budget df mapper_clim standardized_df = inr standardized_df)
  /\ exists t vals,
       process_file file_obj mapper_clim page = (inr (Some t), page)
       /\ getitem t BUDGET = inr {| s_index := index t; s_values := vals |}
       /\ length vals = len t
       /\ Forall (fun c => c = NaN) vals.
Proof.
  intros Hread Hwf Habsent.
  assert (E : in_columns BUDGET_ALLOCATION df = false).
  { apply Habsent. rewrite mapper_clim_budget. now left. }
  split.
  - intros sdf. unfold normalize_budget, budget_col_name.
    rewrite mapper_clim_budget, E, andb_false_r. reflexivity.
  - pose proof (mapped_clim_budget_absent df E) as Hcol.
    exists (dropna_all (mapped_clim df)),
           (select (row_mask (mapped_clim df))
                   (repeat NaN (len (mapped_clim df)))).
    split; [now apply process_file_loaded|].
    split; [|split].
    + unfold getitem. now rewrite (dropna_all_column _ _ _ Hcol).
    + unfold len, dropna_all. cbn [index]. apply select_length.
      apply repeat_length.
    + apply select_Forall. apply Forall_forall.
      intros c Hc. now apply repeat_spec in Hc.
Qed.

Lemma budget_unresolved_stays_missing_witness :
  read_excel (loaded "other.xlsx" thematic_table) = inr thematic_table
  /\ well_formed thematic_table = true
  /\ exists t,
       process_file (loaded "other.xlsx" thematic_table) mapper_clim []
       = (inr (Some t), [])
       /\ getitem t BUDGET = inr {| s_index := [0]; s_values := [NaN] |}.
Proof.
  split; [reflexivity|]. split; [reflexivity|].
  destruct (budget_unresolved_stays_missing
              (loaded "other.xlsx" thematic_table) thematic_table []
              eq_refl eq_refl) as [_ [t [vals [Hrun [Hget _]]]]].
  - intros col Hcol. vm_compute in Hcol.
    destruct Hcol as [<- | []]. vm_compute. reflexivity.
  - exists t. split; [exact Hrun|].
    vm_compute in Hrun. injection Hrun as <-. vm_compute. reflexivity.
Defined.

(** C10: for every source table that has the backing column of the budget
    field, every row of the table [process_file] returns carries "Yes" or
    "No" in the budget field, and no row is dropped: the result has the rows
    of the source, also those in which every other field is missing. *)
Theorem budget_column_keeps_rows (file_obj : UploadedFile) (df : DataFrame)
  (page : Page) :
  read_excel file_obj = inr df -> well_formed df = true ->
  in_columns BUDGET_ALLOCATION df = true ->
  exists t vals,
    process_file file_obj mapper_clim page = (inr (Some t), page)
    /\ index t = index df
    /\ mapped df mapper_clim = inr t
    /\ getitem t BUDGET = inr {| s_index := index df; s_values := vals |}
    /\ length vals = len df
    /\ Forall (fun c => c = Str "Yes" \/ c = Str "No") vals.
Proof.
  intros Hread Hwf E.
  destruct (process_file_budget_present file_obj df page Hread Hwf E)
    as [Hrun [Hidx Hget]].
  exists (mapped_clim df), (map classify (column_or_nan df BUDGET_ALLOCATION)).
  split; [exact Hrun|]. split; [exact Hidx|].
  split; [now apply mapped_closed_form|]. split; [exact Hget|]. split.
  - rewrite length_map. now apply column_or_nan_length.
  - apply Forall_forall. intros c Hc. apply in_map_iff in Hc.
    destruct Hc as [c' [<- _]].
    destruct (classify_values c') as [-> | ->]; [now right | now left].
Qed.

Lemma budget_column_keeps_rows_witness :
  read_excel (loaded "sample.xlsx" sample_policy_table)
  = inr sample_policy_table
  /\ well_formed sample_policy_table = true
  /\ in_columns BUDGET_ALLOCATION sample_policy_table = true
  /\ exists t vals,
       process_file (loaded "sample.xlsx" sample_policy_table) mapper_clim []
       = (inr (Some t), [])
       /\ index t = [0; 1; 2]
       /\ mapped sample_policy_table mapper_clim = inr t
       /\ getitem t BUDGET = inr {| s_index := [0; 1; 2]; s_values := vals |}
       /\ length vals = 3
       /\ Forall (fun c => c = Str "Yes" \/ c = Str "No") vals.
Proof.
  split; [reflexivity|]. split; [reflexivity|]. split; [reflexivity|].
  apply (budget_column_keeps_rows (loaded "sample.xlsx" sample_policy_table)
           sample_policy_table []); reflexivity.
Defined.

(** C2, as stated, fails: the cell " Not specified" of the sample table is a
    negative phrase once trimmed and lowercased, so the trimming rule gives
    "No"; [process_file] gives "Yes". *)
Lemma budget_trimming_counterexample :
  getitem sample_policy_table BUDGET_ALLOCATION
  = inr {| s_index := [0; 1; 2];
           s_values := [Str " Not specified"; NaN; Str "NO DEDICATED BUDGET"] |}
  /\ In (lower (strip " Not specified")) no_strings
  /\ classify_trimmed (Str " Not specified") = Str "No"
  /\ exists t,
       process_file (loaded "sample.xlsx" sample_policy_table) mapper_clim []
       = (inr (Some t), [])
       /\ getitem t BUDGET
          = inr {| s_index := [0; 1; 2];
                   s_values := [Str "Yes"; Str "No"; Str "No"] |}.
Proof.
  split; [reflexivity|]. split; [vm_compute; tauto|].
  split; [reflexivity|].
  eexists. split; vm_compute; reflexivity.
Qed.

(** C2, amended: for every row of the backing column of the budget field,
    the budget field of the table [process_file] returns is "No" exactly when
    the cell is missing, or its text is empty, or its lowercased text (as it
    stands, not trimmed) is one of the five negative phrases, and "Yes"
    otherwise; two texts that differ only in the case of their letters are
    classified alike. *)
Theorem budget_classification (file_obj : UploadedFile) (df : DataFrame)
  (page : Page) (original_budget : Series cell) :
  read_excel file_obj = inr df -> well_formed df = true ->
  in_columns BUDGET_ALLOCATION df = true ->
  getitem df BUDGET_ALLOCATION = inr original_budget ->
  exists t out,
    process_file file_obj mapper_clim page = (inr (Some t), page)
    /\ getitem t BUDGET = inr {| s_index := index df; s_values := out |}
    /\ out = yes_no original_budget
    /\ length out = length (s_values original_budget)
    /\ (forall i c v,
          nth_error (s_values original_budget) i = Some c ->
          nth_error out i = Some v ->
          (v = Str "No" \/ v = Str "Yes")
          /\ (v = Str "No"
              <-> c = NaN \/ str c = ""
                  \/ In (lower (str c)) no_strings))
    /\ (forall i j s s' v v',
          nth_error (s_values original_budget) i = Some (Str s) ->
          nth_error (s_values original_budget) j = Some (Str s') ->
          lower s = lower s' ->
          nth_error out i = Some v -> nth_error out j = Some v' ->
          v = v').
Proof.
  intros Hread Hwf E Hget.
  destruct (process_file_budget_present file_obj df page Hread Hwf E)
    as [Hrun [_ Hcol]].
  rewrite (getitem_present df BUDGET_ALLOCATION E) in Hget.
  injection Hget as <-.
  exists (mapped_clim df), (map classify (column_or_nan df BUDGET_ALLOCATION)).
  cbn [s_values].
  split; [exact Hrun|]. split; [exact Hcol|].
  split; [now rewrite yes_no_classify|]. split; [apply length_map|].
  split.
  - intros i c v Hc Hv. rewrite nth_error_map, Hc in Hv.
    injection Hv as <-. split; [apply classify_values | apply classify_no].
  - intros i j s s' v v' Hs Hs' Hlow Hv Hv'.
    rewrite nth_error_map, Hs in Hv. rewrite nth_error_map, Hs' in Hv'.
    injection Hv as <-. injection Hv' as <-. now apply classify_case.
Qed.

Lemma budget_classification_witness :
  read_excel (loaded "sample.xlsx" sample_policy_table)
  = inr sample_policy_table
  /\ well_formed sample_policy_table = true
  /\ in_columns BUDGET_ALLOCATION sample_policy_table = true
  /\ exists t,
       process_file (loaded "sample.xlsx" sample_policy_table) mapper_clim []
       = (inr (Some t), [])
       /\ getitem t BUDGET
          = inr {| s_index := [0; 1; 2];
                   s_values := [Str "Yes"; Str "No"; Str "No"] |}.
Proof.
  split; [reflexivity|]. split; [reflexivity|]. split; [reflexivity|].
  destruct (budget_classification
              (loaded "sample.xlsx" sample_policy_table) sample_policy_table
              [] _ eq_refl eq_refl eq_refl eq_refl)
    as [t [out [Hrun [Hget [Hout _]]]]].
  exists t. split; [exact Hrun|]. rewrite Hget, Hout. reflexivity.
Defined.

(** ** [dropna] row by row *)

Lemma select_positions {A : Type} (d : A) (mask : list bool) :
  forall (l : list A) (start : nat),
    length l = length mask ->
    select mask l
    = map (fun i => nth (i - start) l d)
          (filter (fun i => nth (i - start) mask false)
                  (seq start (length mask))).
Proof.
  induction mask as [|b mask IH]; intros l start Hlen.
  - reflexivity.
  - destruct l as [|x l]; [discriminate|].
    injection Hlen as Hlen. cbn [select length seq filter].
    rewrite Nat.sub_diag. change (nth 0 (b :: mask) false) with b.
    assert (Hrest :
      map (fun i => nth (i - start) (x :: l) d)
          (filter (fun i => nth (i - start) (b :: mask) false)
                  (seq (S start) (length mask)))
      = select mask l).
    { rewrite (IH l (S start) Hlen).
      rewrite (filter_ext_in
                 (fun i => nth (i - start) (b :: mask) false)
                 (fun i => nth (i - S start) mask false)).
      - apply map_ext_in. intros i Hi. apply filter_In in Hi.
        destruct Hi as [Hi _]. apply in_seq in Hi.
        replace (i - start) with (S (i - S start)) by lia. reflexivity.
      - intros i Hi. apply in_seq in Hi.
        replace (i - start) with (S (i - S start)) by lia. reflexivity. }
    destruct b; cbn [map]; rewrite Hrest; [|reflexivity].
    rewrite Nat.sub_diag. reflexivity.
Qed.

Lemma select_kept {A : Type} (d : A) (mask : list bool) (l : list A) :
  length l = length mask ->
  select mask l
  = map (fun i => nth i l d)
        (filter (fun i => nth i mask false) (seq 0 (length mask))).
Proof.
  intros Hlen. rewrite (select_positions d mask l 0 Hlen).
  rewrite (filter_ext (fun i => nth (i - 0) mask false)
                      (fun i => nth i mask false))
    by (intros i; now rewrite Nat.sub_0_r).
  apply map_ext. intros i. now rewrite Nat.sub_0_r.
Qed.

Lemma nth_map_in {A B : Type} (g : A -> B) (l : list A) (d : A) (d' : B)
  (j : nat) :
  j < length l -> nth j (map g l) d' = g (nth j l d).
Proof.
  intros Hj. rewrite (nth_indep _ d' (g d)) by now rewrite length_map.
  apply map_nth.
Qed.

Lemma map_nth_seq {A B : Type} (F : A -> B) (l : list A) (d : A) :
  map (fun j => F (nth j l d)) (seq 0 (length l)) = map F l.
Proof.
  induction l as [|x l IH]; [reflexivity|].
  cbn [length seq map nth]. f_equal.
  rewrite <- seq_shift, map_map. exact IH.
Qed.

Lemma row_mask_nth (t : DataFrame) (i : nat) :
  i < len t ->
  nth i (row_mask t) false = existsb notna_cell (row_at t i).
Proof.
  intros Hi. unfold row_mask, row_at.
  rewrite (nth_map_in _ _ 0) by now rewrite length_seq.
  rewrite seq_nth by exact Hi. cbn [plus].
  induction (columns t) as [|col cols IH]; simpl; [reflexivity|].
  now rewrite IH.
Qed.

(** Filtering the columns with the row mask is filtering the rows. *)
Lemma dropna_all_rows (t : DataFrame) :
  well_formed t = true ->
  rows (dropna_all t)
  = filter (fun r => existsb notna_cell (snd r)) (rows t).
Proof.
  intros Hwf.
  assert (Hmask : length (row_mask t) = len t)
    by (unfold row_mask; now rewrite length_map, length_seq).
  set (kept := filter (fun i => nth i (row_mask t) false) (seq 0 (len t))).
  assert (Hsel : forall (A : Type) (d : A) (l : list A),
            length l = len t ->
            select (row_mask t) l = map (fun i => nth i l d) kept).
  { intros A d l Hl.
    rewrite (select_kept d (row_mask t) l) by congruence.
    now rewrite Hmask. }
  assert (Hkept : kept
                  = filter (fun i => existsb notna_cell (row_at t i))
                           (seq 0 (len t))).
  { apply filter_ext_in. intros i Hi. apply in_seq in Hi.
    apply row_mask_nth. lia. }
  unfold rows at 2. rewrite filter_map_swap. cbn [snd]. rewrite <- Hkept.
  rewrite <- (map_nth_seq (fun i => (nth i (index t) 0, row_at t i)) kept 0).
  unfold rows, len, dropna_all. cbn [index columns].
  rewrite (Hsel nat 0 (index t) eq_refl), length_map.
  apply map_ext_in. intros j Hj. apply in_seq in Hj.
  rewrite (nth_map_in _ kept 0 0) by lia. f_equal.
  unfold row_at. cbn [columns]. rewrite map_map. cbn [snd].
  apply map_ext_in. intros col Hcol.
  rewrite (Hsel cell NaN (snd col)).
  - apply (nth_map_in (fun i => nth i (snd col) NaN) kept 0 NaN). lia.
  - unfold well_formed in Hwf. rewrite forallb_forall in Hwf.
    apply Nat.eqb_eq. now apply Hwf.
Qed.

(** C4, as stated, fails: the only row of the table below has the
    missing-value marker in each of the 18 canonical fields, and
    [process_file] keeps it, because its thematic-focus column has a value. *)
Lemma all_missing_row_counterexample :
  exists t,
    process_file (loaded "other.xlsx" thematic_table) mapper_clim []
    = (inr (Some t), [])
    /\ len t = 1
    /\ Forall (fun c => getitem t c
                        = inr {| s_index := [0]; s_values := [NaN] |})
              MASTER_COLUMNS.
Proof.
  eexists. split; [vm_compute; reflexivity|].
  split; [reflexivity|].
  repeat (constructor; [vm_compute; reflexivity|]). constructor.
Qed.

(** The second row of [country_table] maps to nothing and is dropped; the
    first keeps its label. *)
Example country_table_rows :
  exists t,
    process_file (loaded "c.xlsx" country_table) mapper_clim []
    = (inr (Some t), [])
    /\ index t = [0]
    /\ getitem t "Country" = inr {| s_index := [0]; s_values := [Str "Kenya"] |}.
Proof. eexists. repeat split; vm_compute; reflexivity. Qed.

(** ** The dataset assembler *)

Lemma fold_add_name_In (c : string) (l acc : list string) :
  In c (fold_left add_name l acc) <-> In c acc \/ In c l.
Proof.
  revert acc. induction l as [|k l IH]; intros acc; simpl.
  - tauto.
  - rewrite IH. unfold add_name.
    destruct (existsb (String.eqb k) acc) eqn:E.
    + apply existsb_eqb_In in E. split; [tauto|].
      intros [H | [<- | H]]; tauto.
    + rewrite in_app_iff. simpl. tauto.
Qed.

Lemma union_names_In (c : string) (frames : list DataFrame) :
  In c (union_names frames)
  <-> exists d, In d frames /\ in_columns c d = true.
Proof.
  unfold union_names. rewrite fold_add_name_In, in_flat_map.
  split.
  - intros [[] | [d [Hd Hc]]]. exists d.
    split; [exact Hd | now apply existsb_eqb_In].
  - intros [d [Hd Hc]]. right. exists d.
    split; [exact Hd | now apply existsb_eqb_In].
Qed.

Lemma assoc_map_key {V : Type} (f : string -> V) (names : list string)
  (c : string) :
  In c names -> assoc c (map (fun k => (k, f k)) names) = Some (f c).
Proof.
  induction names as [|k names IH]; simpl; [tauto|].
  intros H. destruct (String.eqb c k) eqn:E.
  - apply String.eqb_eq in E. now subst.
  - apply IH. destruct H as [-> | H]; [|exact H].
    now rewrite String.eqb_refl in E.
Qed.

Lemma range_from_one (n : nat) :
  range 1 (n + 1) = map (fun i => Int (Z.of_nat i)) (seq 1 n).
Proof. unfold range. now replace (n + 1 - 1) with n by lia. Qed.

Lemma assembled_len (frames : list DataFrame) :
  len (assembled frames) = list_sum (map len frames).
Proof. apply length_seq. Qed.

Lemma assemble_nonempty (d0 : DataFrame) (rest : list DataFrame) :
  assemble (d0 :: rest) = inr (assembled (d0 :: rest)).
Proof.
  unfold assemble, assembled. cbn [concat bind Monad_Res ret].
  set (frames := d0 :: rest). set (n := list_sum (map len frames)).
  unfold len at 1. cbn [index]. rewrite length_seq.
  rewrite setitem_array_same_length; [reflexivity|].
  unfold len. cbn [index].
  now rewrite range_from_one, length_map, !length_seq.
Qed.

(** C5: for every non-empty sequence of standardized tables, the master
    dataset is assembled without failure; it has the rows of the tables one
    table after the other, in the order of the sequence and each table's
    rows in their own order (column by column, the values of the first
    table, then those of the second, and so on); and its identifier column
    is 1..N over the whole, whatever the tables held in it. *)
Theorem assemble_concatenates (all_dfs : list DataFrame) :
  all_dfs <> [] ->
  exists master,
    assemble all_dfs = inr master
    /\ len master = list_sum (map len all_dfs)
    /\ index master = seq 0 (len master)
    /\ getitem master SL_NO
       = inr {| s_index := index master;
                s_values := map (fun i => Int (Z.of_nat i))
                                (seq 1 (len master)) |}
    /\ (forall c,
          c <> SL_NO ->
          (exists d, In d all_dfs /\ in_columns c d = true) ->
          getitem master c
          = inr {| s_index := index master;
                   s_values := flat_map (fun d => column_or_nan d c)
                                        all_dfs |}).
Proof.
  intros Hne. destruct all_dfs as [|d0 rest]; [contradiction|].
  set (frames := d0 :: rest). exists (assembled frames).
  split; [apply assemble_nonempty|].
  rewrite assembled_len.
  split; [reflexivity|]. split; [reflexivity|]. split.
  - unfold getitem, assembled. cbn [columns index].
    rewrite assoc_set_column_same, range_from_one. reflexivity.
  - intros c Hc Hin. unfold getitem, assembled. cbn [columns index].
    rewrite assoc_set_column_other by exact Hc.
    apply union_names_In in Hin.
    now rewrite (assoc_map_key
                   (fun c => flat_map (fun d => column_or_nan d c) frames)
                   _ _ Hin).
Qed.

Lemma assemble_concatenates_witness :
  [table_a; table_b] <> []
  /\ exists master,
       assemble [table_a; table_b] = inr master
       /\ len master = 5
       /\ getitem master SL_NO
          = inr {| s_index := [0; 1; 2; 3; 4];
                   s_values := [Int 1; Int 2; Int 3; Int 4; Int 5] |}
       /\ getitem master "Title"
          = inr {| s_index := [0; 1; 2; 3; 4];
                   s_values := [Str "a1"; Str "a2"; Str "a3";
                                Str "b1"; Str "b2"] |}.
Proof.
  assert (Hne : [table_a; table_b] <> []) by discriminate.
  split; [exact Hne|].
  destruct (assemble_concatenates [table_a; table_b] Hne)
    as [master [Hrun [Hlen [Hidx [Hsl Hcols]]]]].
  exists master. split; [exact Hrun|]. split; [exact Hlen|].
  rewrite Hidx, Hlen in Hsl, Hcols. split; [exact Hsl|].
  apply Hcols; [discriminate|].
  exists table_a. split; [now left | reflexivity].
Defined.

(** ** The batch *)

Lemma process_file_failed (file_obj : UploadedFile) (mapper : Mapper)
  (e : exn) (page : Page) :
  read_excel file_obj = inl e ->
  process_file file_obj mapper page = (inr None, page ++ [st_error e]).
Proof. intros H. unfold process_file. rewrite H. reflexivity. Qed.

(** One round of the loop of [main]. *)
Lemma process_files_step (f : UploadedFile) (rest : list UploadedFile)
  (all_dfs : list DataFrame) (page : Page) :
  file_ok f ->
  process_files (f :: rest) all_dfs page
  = process_files rest (all_dfs ++ usable_table f) (page ++ file_log f).
Proof.
  unfold file_ok, usable_table, file_log. intros Hok.
  cbn [process_files bind Monad_App st]. unfold process_file.
  destruct (read_excel f) as [e | df].
  - cbn [bind Monad_App st ret]. rewrite app_nil_r, <- !app_assoc.
    reflexivity.
  - rewrite (standardize_closed_form df Hok).
    cbn [bind Monad_App lift ret].
    destruct (empty (dropna_all (mapped_clim df)));
      cbn [negb bind Monad_App st ret]; rewrite <- ?app_assoc;
      [rewrite app_nil_r|]; reflexivity.
Qed.

Lemma process_files_collects (files : list UploadedFile) :
  Forall file_ok files ->
  forall all_dfs page,
    process_files files all_dfs page
    = (inr (all_dfs ++ usable_tables files), page ++ batch_log files).
Proof.
  induction 1 as [|f rest Hok _ IH]; intros all_dfs page.
  - cbn. now rewrite !app_nil_r.
  - rewrite (process_files_step f rest all_dfs page Hok), IH.
    unfold usable_tables, batch_log. cbn [flat_map].
    now rewrite <- !app_assoc.
Qed.

Lemma batch_log_no_download (files : list UploadedFile) :
  existsb is_download (batch_log files) = false.
Proof.
  unfold batch_log. induction files as [|f rest IH]; [reflexivity|].
  cbn [flat_map]. rewrite existsb_app, IH, orb_false_r.
  unfold file_log. cbn [existsb is_download orb].
  destruct (read_excel f) as [e | df]; [reflexivity|].
  destruct (standardize df mapper_clim) as [e | t]; [reflexivity|].
  now destruct (empty t).
Qed.

Lemma usable_tables_skip (before after : list UploadedFile)
  (bad : UploadedFile) (e : exn) :
  read_excel bad = inl e ->
  usable_tables (before ++ bad :: after) = usable_tables (before ++ after).
Proof.
  intros H. unfold usable_tables. rewrite !flat_map_app. cbn [flat_map].
  unfold usable_table at 2. now rewrite H.
Qed.

(** [to_excel] on a frame that fits a sheet, and on one that does not. *)
Lemma to_excel_outcome (df : DataFrame) (sheet : string) :
  length (columns df) <= MAX_COLS ->
  to_excel df sheet
  = if MAX_ROWS <? len df
    then inl (ValueError "This sheet is too large!")
    else inr {| sheet_name := sheet;
                header := column_names df;
                body := firstn (MAX_ROWS - 1)
                               (map (row_at df) (seq 0 (len df))) |}.
Proof.
  intros Hcols. unfold to_excel. apply Nat.ltb_ge in Hcols.
  rewrite Hcols, orb_false_r. reflexivity.
Qed.

Lemma batch_log_file_lines (files : list UploadedFile) :
  forallb is_file_line (batch_log files) = true.
Proof.
  unfold batch_log. induction files as [|f rest IH]; [reflexivity|].
  cbn [flat_map]. rewrite forallb_app, IH, andb_true_r.
  unfold file_log. cbn [forallb is_file_line andb].
  destruct (read_excel f) as [e | df]; [reflexivity|].
  destruct (standardize df mapper_clim) as [e | t]; [reflexivity|].
  now destruct (empty t).
Qed.

(** What [main] leaves on the page for a non-empty batch. *)
Lemma main_batch (files : list UploadedFile) (page : Page) :
  files <> [] -> Forall file_ok files ->
  main files page
  = match usable_tables files with
    | [] =>
        (inr tt,
         page ++ [st_title; st_write_intro] ++ batch_log files
         ++ [st_info_no_data])
    | all_dfs =>
        match to_excel (assembled all_dfs) "MASTER" with
        | inr output =>
            (inr tt,
             page ++ [st_title; st_write_intro] ++ batch_log files
             ++ [ st_subheader;
                  st_dataframe (head 50 (assembled all_dfs));
                  st_write_total (len (assembled all_dfs));
                  st_download_button "MASTER_POLICY_DATASET.xlsx" output ])
        | inl e =>
            (inl e,
             page ++ [st_title; st_write_intro] ++ batch_log files
             ++ [ st_subheader;
                  st_dataframe (head 50 (assembled all_dfs));
                  st_write_total (len (assembled all_dfs)) ])
        end
    end.
Proof.
  intros Hne Hok. destruct files as [|f rest]; [contradiction|].
  unfold main. cbn [bind Monad_App st].
  rewrite (process_files_collects (f :: rest) Hok). cbn [app].
  destruct (usable_tables (f :: rest)) as [|d0 ds].
  - unfold st. now rewrite <- !app_assoc.
  - rewrite assemble_nonempty. cbn [lift bind Monad_App]. unfold st.
    cbn [bind Monad_App].
    destruct (to_excel (assembled (d0 :: ds)) "MASTER") as [e | output];
      now rewrite <- !app_assoc.
Qed.

(** ** Any alias table *)

Lemma budget_source_resolved (df : DataFrame) (mapper : Mapper) (col : string) :
  budget_source df mapper = Some col ->
  some_resolved df mapper = true /\ in_columns col df = true.
Proof.
  unfold budget_source, budget_col_name, mapper_get.
  destruct (assoc BUDGET mapper) as [rule|] eqn:Erule; [|discriminate].
  apply assoc_In in Erule.
  assert (Hsome : forall c, resolve df rule = Some c ->
                            some_resolved df mapper = true).
  { intros c Hc. apply existsb_exists. exists (BUDGET, rule).
    split; [exact Erule|]. cbn [snd]. now rewrite Hc. }
  destruct rule as [|s|names].
  - discriminate.
  - destruct (truthy s && in_columns s df) eqn:E; [|discriminate].
    intros [= <-]. split.
    + apply (Hsome s). cbn [resolve]. now rewrite E.
    + now apply andb_true_iff in E.
  - destruct (find (fun c => in_columns c df) names) as [c|] eqn:Efind;
      [|discriminate].
    destruct (truthy c && in_columns c df) eqn:E; [|discriminate].
    intros [= <-]. split.
    + now apply (Hsome c).
    + now apply andb_true_iff in E.
Qed.

Lemma normalize_budget_source (df : DataFrame) (mapper : Mapper)
  (sdf : DataFrame) :
  normalize_budget df mapper sdf
  = match budget_source df mapper with
    | Some col =>
        original_budget <- getitem df col ;;
        setitem_array sdf BUDGET (yes_no original_budget)
    | None => ret sdf
    end.
Proof.
  unfold normalize_budget, budget_source.
  destruct (budget_col_name df mapper) as [|col|names]; try reflexivity.
  now destruct (truthy col && in_columns col df).
Qed.

Lemma looped_index_resolved (df : DataFrame) (mapper : Mapper) :
  some_resolved df mapper = true ->
  index (assign_all df blank mapper) = index df.
Proof.
  intros H. rewrite assign_all_index by apply blank_aligned. now rewrite H.
Qed.

(** On a well-formed table the loop and the budget step never raise. *)
Lemma mapped_table_closed_form (df : DataFrame) (mapper : Mapper) :
  well_formed df = true -> mapped df mapper = inr (mapped_table df mapper).
Proof.
  intros Hwf. unfold mapped, mapped_table.
  change (DataFrame_columns MASTER_COLUMNS) with blank.
  rewrite (map_columns_assign_all mapper (blank_aligned df)).
  cbn [bind Monad_Res]. rewrite normalize_budget_source.
  destruct (budget_source df mapper) as [col|] eqn:E; [|reflexivity].
  apply budget_source_resolved in E. destruct E as [Hres Hcol].
  rewrite (getitem_present df col Hcol). cbn [bind Monad_Res].
  rewrite yes_no_classify. cbn [s_values].
  apply setitem_array_same_length.
  rewrite length_map, column_or_nan_length by exact Hwf.
  unfold len. now rewrite looped_index_resolved.
Qed.

Lemma mapped_table_wf (df : DataFrame) (mapper : Mapper) :
  well_formed df = true -> well_formed (mapped_table df mapper) = true.
Proof.
  intros Hwf.
  assert (Hl : well_formed (assign_all df blank mapper) = true)
    by (apply assign_all_wf; [exact Hwf | apply blank_aligned | exact blank_wf]).
  unfold mapped_table.
  destruct (budget_source df mapper) as [col|] eqn:E; [|exact Hl].
  apply budget_source_resolved in E. destruct E as [Hres _].
  unfold well_formed, len. cbn [index columns].
  apply forallb_set_column; [exact Hl|].
  intros k. cbn [snd]. apply Nat.eqb_eq.
  rewrite length_map, column_or_nan_length by exact Hwf.
  unfold len. now rewrite looped_index_resolved.
Qed.

Lemma mapped_table_index (df : DataFrame) (mapper : Mapper) :
  index (mapped_table df mapper)
  = if some_resolved df mapper then index df else [].
Proof.
  change (@nil nat) with (index blank).
  rewrite <- assign_all_index by apply blank_aligned.
  unfold mapped_table. now destruct (budget_source df mapper).
Qed.

Lemma process_file_mapped_table (file_obj : UploadedFile) (df : DataFrame)
  (mapper : Mapper) (page : Page) :
  read_excel file_obj = inr df -> well_formed df = true ->
  process_file file_obj mapper page
  = (inr (Some (dropna_all (mapped_table df mapper))), page).
Proof.
  intros Hread Hwf. unfold process_file. rewrite Hread.
  cbn [bind Monad_App lift]. unfold standardize.
  rewrite mapped_table_closed_form by exact Hwf. reflexivity.
Qed.

(** X1: for every alias table and every file that loads as a well-formed
    table, [process_file] raises nothing (no KeyError from a column access,
    no length mismatch when the Yes/No array is stored): it returns a table,
    every column of which has one value per row, and writes nothing on the
    page. *)
Theorem process_file_returns_table (file_obj : UploadedFile) (df : DataFrame)
  (mapper : Mapper) (page : Page) :
  read_excel file_obj = inr df -> well_formed df = true ->
  exists t,
    process_file file_obj mapper page = (inr (Some t), page)
    /\ well_formed t = true.
Proof.
  intros Hread Hwf. exists (dropna_all (mapped_table df mapper)). split.
  - now apply process_file_mapped_table.
  - apply dropna_all_wf. now apply mapped_table_wf.
Qed.

Lemma process_file_returns_table_witness :
  read_excel (loaded "sample.xlsx" sample_policy_table)
  = inr sample_policy_table
  /\ well_formed sample_policy_table = true
  /\ exists t,
       process_file (loaded "sample.xlsx" sample_policy_table)
                    title_only_mapper []
       = (inr (Some t), [])
       /\ well_formed t = true.
Proof.
  split; [reflexivity|]. split; [reflexivity|].
  apply (process_file_returns_table (loaded "sample.xlsx" sample_policy_table)
           sample_policy_table title_only_mapper []); reflexivity.
Defined.

Lemma fold_add_name_split (l acc : list string) :
  exists extra,
    fold_left add_name l acc = acc ++ extra
    /\ forall c, In c extra <-> In c l /\ ~ In c acc.
Proof.
  revert acc. induction l as [|k l IH]; intros acc.
  - exists []. split; [now rewrite app_nil_r | simpl; tauto].
  - cbn [fold_left]. unfold add_name at 2.
    destruct (existsb (String.eqb k) acc) eqn:E.
    + apply existsb_eqb_In in E.
      destruct (IH acc) as [extra [Hfold Hin]].
      exists extra. split; [exact Hfold|].
      intros c. rewrite Hin. simpl. split; [tauto|].
      intros [[<- | Hc] Hn]; [contradiction | tauto].
    + assert (Hk : ~ In k acc).
      { intros Hk. apply existsb_eqb_In in Hk. congruence. }
      destruct (IH (acc ++ [k])) as [extra [Hfold Hin]].
      exists (k :: extra). split.
      * rewrite Hfold, <- app_assoc. reflexivity.
      * intros c. simpl. rewrite Hin, in_app_iff. simpl.
        destruct (string_dec k c) as [<- | Hne]; tauto.
Qed.

Lemma mapped_table_names (df : DataFrame) (mapper : Mapper) :
  column_names (mapped_table df mapper)
  = fold_left add_name (map fst mapper) MASTER_COLUMNS.
Proof.
  assert (Hl : column_names (assign_all df blank mapper)
               = fold_left add_name (map fst mapper) MASTER_COLUMNS).
  { rewrite assign_all_names.
    now replace (column_names blank) with MASTER_COLUMNS
      by (vm_compute; reflexivity). }
  unfold mapped_table.
  destruct (budget_source df mapper); [|exact Hl].
  unfold column_names. cbn [columns]. rewrite names_set_column.
  fold (column_names (assign_all df blank mapper)). rewrite Hl.
  apply add_name_present. apply fold_add_name_In. left.
  vm_compute. tauto.
Qed.

(** X2: whatever the alias table, the table [process_file] returns starts
    with the 18 canonical columns in registry order; after them come the
    targets of the alias table that are not canonical columns, and nothing
    else.  No column of the source gets into the result under its own name
    unless the alias table lists it as a target. *)
Theorem canonical_columns_come_first (file_obj : UploadedFile)
  (df : DataFrame) (mapper : Mapper) (page : Page) :
  read_excel file_obj = inr df -> well_formed df = true ->
  exists t extra,
    process_file file_obj mapper page = (inr (Some t), page)
    /\ column_names t = MASTER_COLUMNS ++ extra
    /\ forall c, In c extra <-> In c (map fst mapper) /\ ~ In c MASTER_COLUMNS.
Proof.
  intros Hread Hwf.
  destruct (fold_add_name_split (map fst mapper) MASTER_COLUMNS)
    as [extra [Hfold Hin]].
  exists (dropna_all (mapped_table df mapper)), extra.
  split; [now apply process_file_mapped_table|]. split; [|exact Hin].
  now rewrite dropna_all_names, mapped_table_names.
Qed.

Lemma canonical_columns_come_first_witness :
  read_excel (loaded "sample.xlsx" sample_policy_table)
  = inr sample_policy_table
  /\ well_formed sample_policy_table = true
  /\ exists t extra,
       process_file (loaded "sample.xlsx" sample_policy_table)
                    (("Notes", RStr "Notes") :: title_only_mapper) []
       = (inr (Some t), [])
       /\ column_names t = MASTER_COLUMNS ++ extra
       /\ forall c, In c extra
                    <-> In c (map fst (("Notes", RStr "Notes")
                                       :: title_only_mapper))
                        /\ ~ In c MASTER_COLUMNS.
Proof.
  split; [reflexivity|]. split; [reflexivity|].
  apply (canonical_columns_come_first
           (loaded "sample.xlsx" sample_policy_table) sample_policy_table
           (("Notes", RStr "Notes") :: title_only_mapper) []); reflexivity.
Defined.

Lemma select_incl {A : Type} (mask : list bool) (l : list A) :
  incl (select mask l) l.
Proof.
  revert l. induction mask as [|b mask IH]; intros l x Hx.
  - destruct Hx.
  - destruct l as [|y l]; [destruct Hx|]. cbn [select] in Hx.
    destruct b.
    + destruct Hx as [<- | Hx]; [now left | right; now apply IH].
    + right. now apply IH.
Qed.

Lemma select_length_le {A : Type} (mask : list bool) (l : list A) :
  length (select mask l) <= length l.
Proof.
  revert l. induction mask as [|b mask IH]; intros l.
  - simpl. lia.
  - destruct l as [|y l]; [simpl; lia|]. cbn [select].
    destruct b; cbn [length]; specialize (IH l); lia.
Qed.

Lemma select_NoDup {A : Type} (mask : list bool) (l : list A) :
  NoDup l -> NoDup (select mask l).
Proof.
  revert l. induction mask as [|b mask IH]; intros l Hnd.
  - constructor.
  - destruct l as [|y l]; [constructor|]. cbn [select].
    inversion Hnd as [|? ? Hy Hl]; subst.
    destruct b; [|now apply IH].
    constructor; [|now apply IH].
    intros Hin. apply Hy. now apply (select_incl mask l).
Qed.

(** X3: the rows of the table [process_file] returns come from the source:
    whatever the alias table, every row label of the result is a row label
    of the source table, the result has at most as many rows as the source,
    and labels that are distinct in the source stay distinct. *)
Theorem result_rows_come_from_source (file_obj : UploadedFile)
  (df : DataFrame) (mapper : Mapper) (page : Page) :
  read_excel file_obj = inr df -> well_formed df = true ->
  exists t,
    process_file file_obj mapper page = (inr (Some t), page)
    /\ incl (index t) (index df)
    /\ len t <= len df
    /\ (NoDup (index df) -> NoDup (index t)).
Proof.
  intros Hread Hwf. exists (dropna_all (mapped_table df mapper)).
  split; [now apply process_file_mapped_table|].
  unfold len, dropna_all. cbn [index].
  set (mask := row_mask (mapped_table df mapper)).
  rewrite mapped_table_index.
  destruct (some_resolved df mapper).
  - split; [apply select_incl|]. split; [apply select_length_le|].
    apply select_NoDup.
  - assert (E : select mask (@nil nat) = []) by now destruct mask.
    rewrite E. split; [intros x []|]. split; [simpl; lia|].
    intros _. constructor.
Qed.

Lemma result_rows_come_from_source_witness :
  read_excel (loaded "c.xlsx" country_table) = inr country_table
  /\ well_formed country_table = true
  /\ exists t,
       process_file (loaded "c.xlsx" country_table) mapper_clim []
       = (inr (Some t), [])
       /\ incl (index t) [0; 1]
       /\ len t <= 2.
Proof.
  split; [reflexivity|]. split; [reflexivity|].
  destruct (result_rows_come_from_source (loaded "c.xlsx" country_table)
              country_table mapper_clim [] eq_refl eq_refl)
    as [t [Hrun [Hincl [Hlen _]]]].
  exists t. split; [exact Hrun|]. split; [exact Hincl | exact Hlen].
Defined.

(** X4: whatever the alias table, no row of the table [process_file]
    returns is blank: every row has a cell that is not the missing-value
    marker. *)
Theorem result_has_no_blank_row (file_obj : UploadedFile) (df : DataFrame)
  (mapper : Mapper) (page : Page) :
  read_excel file_obj = inr df -> well_formed df = true ->
  exists t,
    process_file file_obj mapper page = (inr (Some t), page)
    /\ Forall (fun r => exists c, In c (snd r) /\ c <> NaN) (rows t).
Proof.
  intros Hread Hwf. exists (dropna_all (mapped_table df mapper)).
  split; [now apply process_file_mapped_table|].
  rewrite (dropna_all_rows _ (mapped_table_wf df mapper Hwf)).
  apply Forall_forall. intros r Hr. apply filter_In in Hr.
  destruct Hr as [_ Hr]. apply existsb_exists in Hr.
  destruct Hr as [c [Hc Hna]]. exists c. split; [exact Hc|].
  intros ->. discriminate Hna.
Qed.

Lemma result_has_no_blank_row_witness :
  read_excel (loaded "c.xlsx" country_table) = inr country_table
  /\ well_formed country_table = true
  /\ exists t,
       process_file (loaded "c.xlsx" country_table) mapper_clim []
       = (inr (Some t), [])
       /\ Forall (fun r => exists c, In c (snd r) /\ c <> NaN) (rows t).
Proof.
  split; [reflexivity|]. split; [reflexivity|].
  apply (result_has_no_blank_row (loaded "c.xlsx" country_table)
           country_table mapper_clim []); reflexivity.
Defined.

(** ** Source columns no rule names *)

Lemma in_columns_assoc_bool (c : string) (df : DataFrame) :
  in_columns c df = match assoc c (columns df) with
                    | Some _ => true
                    | None => false
                    end.
Proof.
  unfold in_columns, column_names.
  induction (columns df) as [|[k v] rest IH]; simpl; [reflexivity|].
  destruct (String.eqb c k); [reflexivity | exact IH].
Qed.

Section Agreement.

Variables df1 df2 : DataFrame.

Lemma agree_in_columns (names : list string) (c : string) :
  agree_on names df1 df2 -> In c names ->
  in_columns c df1 = in_columns c df2.
Proof.
  intros [_ H] Hc. rewrite !in_columns_assoc_bool. now rewrite (H c Hc).
Qed.

Lemma agree_getitem (names : list string) (c : string) :
  agree_on names df1 df2 -> In c names -> getitem df1 c = getitem df2 c.
Proof.
  intros [Hidx H] Hc. unfold getitem. now rewrite (H c Hc), Hidx.
Qed.

Lemma agree_on_incl (names names' : list string) :
  incl names' names -> agree_on names df1 df2 -> agree_on names' df1 df2.
Proof. intros Hincl [Hidx H]. split; [exact Hidx | auto]. Qed.

Lemma agree_find (names : list string) :
  agree_on names df1 df2 ->
  find (fun c => in_columns c df1) names
  = find (fun c => in_columns c df2) names.
Proof.
  intros Hag. induction names as [|c rest IH]; [reflexivity|]. cbn [find].
  rewrite (agree_in_columns (c :: rest) c Hag) by now left.
  rewrite IH; [reflexivity|].
  apply (agree_on_incl (c :: rest)); [|exact Hag].
  intros x Hx. now right.
Qed.

Lemma agree_scan_candidates (names : list string) (sdf : DataFrame)
  (target : string) :
  agree_on names df1 df2 ->
  scan_candidates df1 sdf target names = scan_candidates df2 sdf target names.
Proof.
  intros Hag. rewrite !scan_candidates_find, (agree_find names Hag).
  destruct (find (fun c => in_columns c df2) names) as [c|] eqn:E;
    [|reflexivity].
  apply find_some in E. destruct E as [Hc _].
  now rewrite (agree_getitem names c Hag Hc).
Qed.

Lemma agree_map_column (sdf : DataFrame) (target : string)
  (rule : alias_rule) :
  agree_on (candidate_names rule) df1 df2 ->
  map_column df1 sdf (target, rule) = map_column df2 sdf (target, rule).
Proof.
  intros Hag. destruct rule as [|s|names]; cbn [map_column].
  - reflexivity.
  - rewrite (agree_in_columns [s] s Hag) by now left.
    now rewrite (agree_getitem [s] s Hag) by now left.
  - now rewrite (agree_scan_candidates names sdf target Hag).
Qed.

Lemma agree_map_columns (mapper : Mapper) (sdf : DataFrame) :
  agree_on (alias_names mapper) df1 df2 ->
  map_columns df1 sdf mapper = map_columns df2 sdf mapper.
Proof.
  revert sdf. induction mapper as [|[target rule] rest IH]; intros sdf Hag.
  - reflexivity.
  - cbn [map_columns].
    rewrite (agree_map_column sdf target rule).
    + destruct (map_column df2 sdf (target, rule)) as [e | sdf'];
        [reflexivity|]. cbn [bind Monad_Res]. apply IH.
      apply (agree_on_incl (alias_names ((target, rule) :: rest)));
        [|exact Hag].
      intros x Hx. unfold alias_names. cbn [flat_map snd].
      apply in_or_app. now right.
    + apply (agree_on_incl (alias_names ((target, rule) :: rest)));
        [|exact Hag].
      intros x Hx. unfold alias_names. cbn [flat_map snd].
      apply in_or_app. now left.
Qed.

Lemma agree_normalize_budget (mapper : Mapper) (sdf : DataFrame) :
  agree_on (alias_names mapper) df1 df2 ->
  normalize_budget df1 mapper sdf = normalize_budget df2 mapper sdf.
Proof.
  intros Hag. unfold normalize_budget, budget_col_name, mapper_get.
  destruct (assoc BUDGET mapper) as [rule|] eqn:Erule; [|reflexivity].
  apply assoc_In in Erule.
  assert (Hrule : agree_on (candidate_names rule) df1 df2).
  { apply (agree_on_incl (alias_names mapper)); [|exact Hag].
    intros x Hx. unfold alias_names. apply in_flat_map.
    exists (BUDGET, rule). split; [exact Erule | exact Hx]. }
  destruct rule as [|s|names].
  - reflexivity.
  - rewrite (agree_in_columns [s] s Hrule) by now left.
    now rewrite (agree_getitem [s] s Hrule) by now left.
  - rewrite (agree_find names Hrule).
    destruct (find (fun c => in_columns c df2) names) as [c|] eqn:E;
      [|reflexivity].
    apply find_some in E. destruct E as [Hc _].
    rewrite (agree_in_columns names c Hrule Hc).
    now rewrite (agree_getitem names c Hrule Hc).
Qed.

End Agreement.

(** X5: [process_file] looks at the source table only through the columns
    the alias table names: two files whose tables have the same row labels
    and the same columns under every name of the alias table give the same
    outcome, whatever other columns they hold and in whatever order the
    columns stand. *)
Theorem unnamed_columns_are_ignored (f1 f2 : UploadedFile)
  (df1 df2 : DataFrame) (mapper : Mapper) (page : Page) :
  read_excel f1 = inr df1 -> read_excel f2 = inr df2 ->
  agree_on (alias_names mapper) df1 df2 ->
  fst (process_file f1 mapper page) = fst (process_file f2 mapper page).
Proof.
  intros H1 H2 Hag. unfold process_file. rewrite H1, H2.
  assert (E : standardize df1 mapper = standardize df2 mapper).
  { unfold standardize, mapped.
    rewrite (agree_map_columns df1 df2 mapper _ Hag).
    destruct (map_columns df2 (DataFrame_columns MASTER_COLUMNS) mapper)
      as [e | sdf]; [reflexivity|]. cbn [bind Monad_Res].
    now rewrite (agree_normalize_budget df1 df2 mapper sdf Hag). }
  cbn [bind Monad_App lift]. rewrite E.
  now destruct (standardize df2 mapper).
Qed.

Lemma unnamed_columns_are_ignored_witness :
  read_excel (loaded "a.xlsx" sample_policy_table) = inr sample_policy_table
  /\ read_excel (loaded "b.xlsx" sample_policy_table_trimmed)
     = inr sample_policy_table_trimmed
  /\ agree_on (alias_names mapper_clim) sample_policy_table
              sample_policy_table_trimmed
  /\ fst (process_file (loaded "a.xlsx" sample_policy_table) mapper_clim [])
     = fst (process_file (loaded "b.xlsx" sample_policy_table_trimmed)
                         mapper_clim []).
Proof.
  assert (Hag : agree_on (alias_names mapper_clim) sample_policy_table
                         sample_policy_table_trimmed).
  { split; [reflexivity|]. intros c Hc. vm_compute in Hc.
    repeat (destruct Hc as [<- | Hc]; [vm_compute; reflexivity|]).
    destruct Hc. }
  split; [reflexivity|]. split; [reflexivity|]. split; [exact Hag|].
  apply (unnamed_columns_are_ignored
           (loaded "a.xlsx" sample_policy_table)
           (loaded "b.xlsx" sample_policy_table_trimmed)
           sample_policy_table sample_policy_table_trimmed mapper_clim []
           eq_refl eq_refl Hag).
Defined.

(** ** The budget step at its edges *)

Lemma assoc_absent {V : Type} (k : string) (l : list (string * V)) :
  ~ In k (map fst l) -> assoc k l = None.
Proof.
  intros H. destruct (assoc k l) as [v|] eqn:E; [|reflexivity].
  exfalso. apply H. apply assoc_In in E.
  change k with (fst (k, v)). now apply in_map.
Qed.

Lemma blank_settled (df : DataFrame) (target : string) :
  In target MASTER_COLUMNS -> column_settled df blank target None.
Proof.
  intros H. split; [|congruence].
  unfold blank, DataFrame_columns. cbn [columns].
  now rewrite (assoc_map_key (fun _ => @nil cell) MASTER_COLUMNS target H).
Qed.

(** X6: when the alias table has no entry for the budget field,
    [mapper.get] gives [None], the budget step is skipped, and the budget
    field of the table [process_file] returns holds the missing-value marker
    on every row, whatever the source table holds. *)
Theorem budget_field_without_rule (file_obj : UploadedFile) (df : DataFrame)
  (mapper : Mapper) (page : Page) :
  read_excel file_obj = inr df ->
  ~ In BUDGET (map fst mapper) ->
  exists t vals,
    process_file file_obj mapper page = (inr (Some t), page)
    /\ getitem t BUDGET = inr {| s_index := index t; s_values := vals |}
    /\ length vals = len t
    /\ Forall (fun c => c = NaN) vals.
Proof.
  intros Hread Hkey.
  set (looped := assign_all df blank mapper).
  assert (Hcol : assoc BUDGET (columns looped)
                 = Some (repeat NaN (len looped))).
  { assert (Hb : In BUDGET MASTER_COLUMNS) by (vm_compute; tauto).
    destruct (@assign_all_keeps_settled df mapper blank BUDGET None Hkey
                (blank_aligned df) (blank_settled df BUDGET Hb))
      as [Hsettled _].
    exact Hsettled. }
  exists (dropna_all looped),
         (select (row_mask looped) (repeat NaN (len looped))).
  split; [|split; [|split]].
  - unfold process_file. rewrite Hread. cbn [bind Monad_App lift].
    unfold standardize, mapped.
    change (DataFrame_columns MASTER_COLUMNS) with blank.
    rewrite (map_columns_assign_all mapper (blank_aligned df)).
    cbn [bind Monad_Res].
    unfold normalize_budget, budget_col_name, mapper_get.
    now rewrite (assoc_absent BUDGET mapper Hkey).
  - unfold getitem. now rewrite (dropna_all_column _ _ _ Hcol).
  - unfold len, dropna_all. cbn [index]. apply select_length.
    apply repeat_length.
  - apply select_Forall. apply Forall_forall.
    intros c Hc. now apply repeat_spec in Hc.
Qed.

Lemma budget_field_without_rule_witness :
  read_excel (loaded "sample.xlsx" sample_policy_table)
  = inr sample_policy_table
  /\ ~ In BUDGET (map fst title_only_mapper)
  /\ exists t,
       process_file (loaded "sample.xlsx" sample_policy_table)
                    title_only_mapper []
       = (inr (Some t), [])
       /\ getitem t BUDGET
          = inr {| s_index := [0; 2]; s_values := [NaN; NaN] |}.
Proof.
  assert (Hkey : ~ In BUDGET (map fst title_only_mapper)).
  { intros [H | []]. discriminate H. }
  split; [reflexivity|]. split; [exact Hkey|].
  destruct (budget_field_without_rule
              (loaded "sample.xlsx" sample_policy_table) sample_policy_table
              title_only_mapper [] eq_refl Hkey)
    as [t [vals [Hrun _]]].
  exists t. split; [exact Hrun|].
  vm_compute in Hrun. injection Hrun as <-. vm_compute. reflexivity.
Defined.

Lemma classify_int (z : Z) : classify (Int z) = Str "Yes".
Proof.
  unfold classify. cbn [isna_cell str orb].
  destruct z as [|p|p]; cbn [Z.to_int NilZero.string_of_int].
  - reflexivity.
  - unfold NilZero.string_of_uint.
    destruct (Pos.to_uint p); reflexivity.
  - unfold NilZero.string_of_uint.
    destruct (Pos.to_uint p); reflexivity.
Qed.

(** X7: a budget cell that holds an integer, 0 and negative figures
    included, is classified "Yes": the text of a number is never empty and
    never a negative phrase. *)
Theorem figures_are_classified_yes (original_budget : Series cell) (i : nat)
  (z : Z) :
  nth_error (s_values original_budget) i = Some (Int z) ->
  nth_error (yes_no original_budget) i = Some (Str "Yes").
Proof.
  intros H. rewrite yes_no_classify, nth_error_map, H. cbn [option_map].
  now rewrite classify_int.
Qed.

Lemma figures_are_classified_yes_witness :
  nth_error (s_values {| s_index := [0; 1];
                         s_values := [Int 0; Int (-250)] |}) 1
  = Some (Int (-250))
  /\ nth_error (yes_no {| s_index := [0; 1];
                          s_values := [Int 0; Int (-250)] |}) 1
     = Some (Str "Yes").
Proof.
  split; [reflexivity|].
  apply (figures_are_classified_yes
           {| s_index := [0; 1]; s_values := [Int 0; Int (-250)] |} 1 (-250)).
  reflexivity.
Defined.

(** ** What [main] reports *)

Lemma file_ok_standardize (f : UploadedFile) (df : DataFrame) :
  file_ok f -> read_excel f = inr df ->
  standardize df mapper_clim = inr (dropna_all (mapped_clim df)).
Proof.
  unfold file_ok. intros Hok Hread. rewrite Hread in Hok.
  now apply standardize_closed_form.
Qed.

Lemma batch_log_announced (files : list UploadedFile) :
  announced (batch_log files) = map name files.
Proof.
  unfold announced, batch_log.
  induction files as [|f rest IH]; [reflexivity|].
  cbn [flat_map map]. rewrite flat_map_app, IH.
  unfold file_log. cbn [flat_map app]. f_equal.
  destruct (read_excel f) as [e | df]; [reflexivity|].
  destruct (standardize df mapper_clim) as [e | t]; [reflexivity|].
  now destruct (empty t).
Qed.

Lemma batch_log_verdicts (files : list UploadedFile) :
  Forall file_ok files -> verdicts (batch_log files) = map name files.
Proof.
  unfold verdicts, batch_log.
  induction 1 as [|f rest Hok _ IH]; [reflexivity|].
  cbn [flat_map map]. rewrite flat_map_app, IH.
  unfold file_log. cbn [flat_map app].
  destruct (read_excel f) as [e | df] eqn:Hread; [reflexivity|].
  rewrite (file_ok_standardize f df Hok Hread).
  now destruct (empty (dropna_all (mapped_clim df))).
Qed.

Lemma batch_log_success_rows (files : list UploadedFile) :
  Forall file_ok files ->
  success_rows (batch_log files) = map len (usable_tables files).
Proof.
  unfold success_rows, batch_log, usable_tables.
  induction 1 as [|f rest Hok _ IH]; [reflexivity|].
  cbn [flat_map]. rewrite flat_map_app, map_app, IH. f_equal.
  unfold file_log, usable_table. cbn [flat_map app].
  destruct (read_excel f) as [e | df] eqn:Hread; [reflexivity|].
  rewrite (file_ok_standardize f df Hok Hread).
  now destruct (empty (dropna_all (mapped_clim df))).
Qed.

Lemma usable_tables_Forall (P : DataFrame -> Prop)
  (files : list UploadedFile) :
  Forall file_ok files ->
  (forall df, well_formed df = true ->
              empty (dropna_all (mapped_clim df)) = false ->
              P (dropna_all (mapped_clim df))) ->
  Forall P (usable_tables files).
Proof.
  intros Hok HP. unfold usable_tables.
  induction Hok as [|f rest Hf _ IH]; [constructor|].
  cbn [flat_map]. apply Forall_app. split; [|exact IH].
  unfold usable_table.
  destruct (read_excel f) as [e | df] eqn:Hread; [constructor|].
  rewrite (file_ok_standardize f df Hf Hread).
  destruct (empty (dropna_all (mapped_clim df))) eqn:E; [constructor|].
  constructor; [|constructor]. apply HP; [|exact E].
  unfold file_ok in Hf. now rewrite Hread in Hf.
Qed.

Lemma list_sum_positive (l : list nat) :
  l <> [] -> Forall (fun n => 1 <= n) l -> 1 <= list_sum l.
Proof.
  intros Hne H. destruct H as [|n l Hn Hl]; [contradiction|].
  simpl. lia.
Qed.

(** ** The header and the shape of the master dataset *)

Lemma fold_add_name_present (l acc : list string) :
  incl l acc -> fold_left add_name l acc = acc.
Proof.
  revert acc. induction l as [|k l IH]; intros acc Hincl; [reflexivity|].
  cbn [fold_left]. rewrite add_name_present by (apply Hincl; now left).
  apply IH. intros x Hx. apply Hincl. now right.
Qed.

Lemma fold_add_name_fresh (l acc : list string) :
  NoDup (acc ++ l) -> fold_left add_name l acc = acc ++ l.
Proof.
  revert acc. induction l as [|k l IH]; intros acc Hnd.
  - now rewrite app_nil_r.
  - cbn [fold_left]. unfold add_name at 2.
    destruct (existsb (String.eqb k) acc) eqn:E.
    + apply existsb_eqb_In in E. apply NoDup_remove_2 in Hnd.
      exfalso. apply Hnd. apply in_or_app. now left.
    + rewrite IH; rewrite <- app_assoc; [reflexivity | exact Hnd].
Qed.

Lemma union_names_same (names : list string) (d0 : DataFrame)
  (rest : list DataFrame) :
  NoDup names ->
  Forall (fun t => column_names t = names) (d0 :: rest) ->
  union_names (d0 :: rest) = names.
Proof.
  intros Hnd Hall. apply Forall_cons_iff in Hall.
  destruct Hall as [H0 Hrest]. unfold union_names. cbn [flat_map]. rewrite fold_left_app.
  rewrite (fold_add_name_fresh (column_names d0) [])
    by (rewrite H0; exact Hnd).
  cbn [app]. rewrite H0. apply fold_add_name_present.
  intros x Hx. apply in_flat_map in Hx. destruct Hx as [d [Hd Hx]].
  rewrite Forall_forall in Hrest. now rewrite (Hrest d Hd) in Hx.
Qed.

Lemma flat_map_length_sum {A B : Type} (f : A -> list B) (l : list A) :
  length (flat_map f l) = list_sum (map (fun x => length (f x)) l).
Proof.
  induction l as [|x l IH]; [reflexivity|].
  cbn [flat_map map]. rewrite length_app, IH. reflexivity.
Qed.

Lemma assembled_wf (frames : list DataFrame) :
  Forall (fun t => well_formed t = true) frames ->
  well_formed (assembled frames) = true.
Proof.
  intros Hwf. unfold well_formed. rewrite assembled_len.
  unfold assembled. cbn [columns].
  apply forallb_set_column.
  - apply forallb_forall. intros col Hcol. apply in_map_iff in Hcol.
    destruct Hcol as [c [<- _]]. cbn [snd]. apply Nat.eqb_eq.
    rewrite flat_map_length_sum. f_equal. apply map_ext_in.
    intros d Hd. rewrite Forall_forall in Hwf.
    apply column_or_nan_length. now apply Hwf.
  - intros k. cbn [snd]. apply Nat.eqb_eq.
    now rewrite range_from_one, length_map, length_seq.
Qed.

Lemma assembled_names (names : list string) (d0 : DataFrame)
  (rest : list DataFrame) :
  NoDup names -> In SL_NO names ->
  Forall (fun t => column_names t = names) (d0 :: rest) ->
  column_names (assembled (d0 :: rest)) = names.
Proof.
  intros Hnd Hsl Hall. unfold column_names, assembled. cbn [columns].
  rewrite names_set_column, map_map. cbn [fst]. rewrite map_id.
  rewrite (union_names_same names d0 rest Hnd Hall).
  now apply add_name_present.
Qed.

Lemma header_NoDup : NoDup (MASTER_COLUMNS ++ EXTRA_COLUMNS).
Proof. apply unique_keys_NoDup. vm_compute. reflexivity. Qed.

Lemma select_nil {A : Type} (mask : list bool) (l : list A) :
  length l = 0 -> select mask l = [].
Proof. destruct l; [now destruct mask | discriminate]. Qed.

(** X11: a file whose table has no rows, or none of whose columns is named
    by the alias table, gets the warning that no usable data was found and
    adds no table to the batch; the loop goes on with the tables gathered so
    far. *)
Theorem unrecognised_file_is_warned (f : UploadedFile) (df : DataFrame)
  (rest : list UploadedFile) (all_dfs : list DataFrame) (page : Page) :
  read_excel f = inr df -> well_formed df = true ->
  some_alias_present df mapper_clim = false \/ len df = 0 ->
  process_files (f :: rest) all_dfs page
  = process_files rest all_dfs
      (page ++ [st_write_processing (name f); st_warning (name f)]).
Proof.
  intros Hread Hwf Hcase.
  assert (Hok : file_ok f) by (unfold file_ok; now rewrite Hread).
  assert (Hempty : empty (dropna_all (mapped_clim df)) = true).
  { unfold empty, len, dropna_all. cbn [index].
    rewrite select_nil; [reflexivity|].
    rewrite mapped_clim_index.
    destruct Hcase as [-> | H0]; [reflexivity|].
    now destruct (some_alias_present df mapper_clim). }
  rewrite (process_files_step f rest all_dfs page Hok).
  unfold usable_table, file_log. rewrite Hread.
  rewrite (standardize_closed_form df Hwf), Hempty.
  now rewrite app_nil_r.
Qed.

Lemma unrecognised_file_is_warned_witness :
  read_excel (loaded "c.xlsx" unmatched_table) = inr unmatched_table
  /\ well_formed unmatched_table = true
  /\ (some_alias_present unmatched_table mapper_clim = false
      \/ len unmatched_table = 0)
  /\ process_files [loaded "c.xlsx" unmatched_table] [] []
     = (inr [], [st_write_processing "c.xlsx"; st_warning "c.xlsx"]).
Proof.
  split; [reflexivity|]. split; [reflexivity|].
  split; [left; reflexivity|].
  apply (unrecognised_file_is_warned (loaded "c.xlsx" unmatched_table)
           unmatched_table [] [] [] eq_refl eq_refl).
  left. reflexivity.
Defined.

(** ** The budget field and the alias rules, in general *)

(** X12: under the fixed alias table the budget field of the table
    [process_file] returns holds nothing but "Yes", "No" and the
    missing-value marker, whatever the source table: the text of the source
    column never gets through. *)
Theorem budget_field_values (file_obj : UploadedFile) (df : DataFrame)
  (page : Page) :
  read_excel file_obj = inr df -> well_formed df = true ->
  exists t vals,
    process_file file_obj mapper_clim page = (inr (Some t), page)
    /\ getitem t BUDGET = inr {| s_index := index t; s_values := vals |}
    /\ Forall (fun c => c = Str "Yes" \/ c = Str "No" \/ c = NaN) vals.
Proof.
  intros Hread Hwf.
  destruct (in_columns BUDGET_ALLOCATION df) eqn:E.
  - destruct (process_file_budget_present file_obj df page Hread Hwf E)
      as [Hrun [Hidx Hget]].
    exists (mapped_clim df),
           (map classify (column_or_nan df BUDGET_ALLOCATION)).
    split; [exact Hrun|]. split; [now rewrite Hidx|].
    apply Forall_forall. intros c Hc. apply in_map_iff in Hc.
    destruct Hc as [c' [<- _]].
    destruct (classify_values c') as [-> | ->]; tauto.
  - pose proof (mapped_clim_budget_absent df E) as Hcol.
    exists (dropna_all (mapped_clim df)),
           (select (row_mask (mapped_clim df))
                   (repeat NaN (len (mapped_clim df)))).
    split; [now apply process_file_loaded|]. split.
    + unfold getitem. now rewrite (dropna_all_column _ _ _ Hcol).
    + apply select_Forall. apply Forall_forall.
      intros c Hc. apply repeat_spec in Hc. tauto.
Qed.

Lemma budget_field_values_witness :
  read_excel (loaded "sample.xlsx" sample_policy_table)
  = inr sample_policy_table
  /\ well_formed sample_policy_table = true
  /\ exists t vals,
       process_file (loaded "sample.xlsx" sample_policy_table) mapper_clim []
       = (inr (Some t), [])
       /\ getitem t BUDGET = inr {| s_index := index t; s_values := vals |}
       /\ Forall (fun c => c = Str "Yes" \/ c = Str "No" \/ c = NaN) vals.
Proof.
  split; [reflexivity|]. split; [reflexivity|].
  apply (budget_field_values (loaded "sample.xlsx" sample_policy_table)
           sample_policy_table []); reflexivity.
Defined.

(** X13: the mapping loop follows the rules of every alias table whose
    targets are distinct, for canonical and other targets alike: [None]
    gives missing-value markers; a name gives the source column of that
    name when the name is not empty and is a column of the source, and
    markers otherwise, so the empty name maps nothing even when the source
    has a column of that name; a list gives the first of its names that is
    a column of the source, and markers when none is. *)
Theorem alias_rules_of_any_table (df : DataFrame) (mapper : Mapper)
  (target : string) (rule : alias_rule) :
  NoDup (map fst mapper) -> In (target, rule) mapper ->
  exists standardized_df,
    map_columns df (DataFrame_columns MASTER_COLUMNS) mapper
    = inr standardized_df
    /\ match rule with
       | RNone => all_missing standardized_df target
       | RStr source_col =>
           if negb (String.eqb source_col "") && in_columns source_col df
           then getitem standardized_df target = getitem df source_col
           else all_missing standardized_df target
       | RList names =>
           match find (fun c => in_columns c df) names with
           | Some col => getitem standardized_df target = getitem df col
           | None => all_missing standardized_df target
           end
       end.
Proof.
  intros Hnd Hin. exists (assign_all df blank mapper). split.
  - apply map_columns_assign_all. apply blank_aligned.
  - pose proof (@assign_all_settles df mapper blank target rule Hnd
                  (blank_aligned df) Hin) as Hset.
    apply settled_getitem in Hset.
    destruct rule as [|source_col|names]; cbn [resolve] in Hset.
    + exact Hset.
    + unfold truthy in Hset.
      destruct (negb (String.eqb source_col "") && in_columns source_col df)
        eqn:E; [|exact Hset].
      apply Hset. now apply andb_true_iff in E.
    + destruct (find (fun c => in_columns c df) names) as [col|] eqn:E;
        [|exact Hset].
      apply Hset. now apply find_some in E.
Qed.

Lemma alias_rules_of_any_table_witness :
  NoDup (map fst title_only_mapper)
  /\ In ("Title", RStr "Policy") title_only_mapper
  /\ exists standardized_df,
       map_columns sample_policy_table (DataFrame_columns MASTER_COLUMNS)
                   title_only_mapper
       = inr standardized_df
       /\ getitem standardized_df "Title"
          = getitem sample_policy_table "Policy".
Proof.
  assert (Hnd : NoDup (map fst title_only_mapper))
    by (apply unique_keys_NoDup; reflexivity).
  assert (Hin : In ("Title", RStr "Policy") title_only_mapper) by now left.
  split; [exact Hnd|]. split; [exact Hin|].
  apply (alias_rules_of_any_table sample_policy_table title_only_mapper
           "Title" (RStr "Policy") Hnd Hin).
Defined.

(** ** Missing and empty cells *)

Lemma forallb_repeat_NaN (ok : cell -> bool) (n : nat) :
  ok NaN = true -> forallb ok (repeat NaN n) = true.
Proof.
  intros H. induction n as [|n IH]; [reflexivity|].
  cbn [repeat forallb]. now rewrite H, IH.
Qed.

Lemma column_or_nan_no_empty_text (df : DataFrame) (c : string) :
  no_empty_text df = true ->
  forallb (fun x => negb (cell_eqb x (Str ""))) (column_or_nan df c) = true.
Proof.
  intros Hdf. unfold column_or_nan.
  destruct (assoc c (columns df)) as [vals|] eqn:E.
  - apply assoc_In in E. unfold no_empty_text in Hdf.
    rewrite forallb_forall in Hdf. exact (Hdf _ E).
  - now apply forallb_repeat_NaN.
Qed.

Lemma assign_no_empty_text (df sdf : DataFrame) (target : string)
  (source : option string) :
  no_empty_text df = true -> no_empty_text sdf = true ->
  no_empty_text (assign df sdf target source) = true.
Proof.
  intros Hdf Hsdf. unfold no_empty_text.
  destruct source as [c|]; cbn [assign setitem_scalar columns].
  - apply forallb_set_column.
    + unfold ensure_valid_index.
      destruct ((len sdf =? 0) && (0 <? length (index df))); [|exact Hsdf].
      cbn [columns]. apply forallb_forall. intros col Hcol.
      apply in_map_iff in Hcol. destruct Hcol as [col' [<- _]]. cbn [snd].
      now apply forallb_repeat_NaN.
    + intros k. cbn [snd]. now apply column_or_nan_no_empty_text.
  - apply forallb_set_column; [exact Hsdf|].
    intros k. cbn [snd]. now apply forallb_repeat_NaN.
Qed.

Lemma assign_all_no_empty_text (df : DataFrame) (items : Mapper)
  (sdf : DataFrame) :
  no_empty_text df = true -> no_empty_text sdf = true ->
  no_empty_text (assign_all df sdf items) = true.
Proof.
  intros Hdf. revert sdf.
  induction items as [|item rest IH]; intros sdf Hsdf; [exact Hsdf|].
  change (assign_all df sdf (item :: rest))
    with (assign_all df (assign df sdf (fst item) (resolve df (snd item)))
                     rest).
  apply IH. now apply assign_no_empty_text.
Qed.

Lemma mapped_clim_no_empty_text (df : DataFrame) :
  no_empty_text df = true -> no_empty_text (mapped_clim df) = true.
Proof.
  intros Hdf.
  assert (Hl : no_empty_text (assign_all df blank mapper_clim) = true)
    by (apply assign_all_no_empty_text; [exact Hdf | reflexivity]).
  unfold mapped_clim.
  destruct (in_columns BUDGET_ALLOCATION df); [|exact Hl].
  unfold no_empty_text. cbn [columns].
  apply forallb_set_column; [exact Hl|].
  intros k. cbn [snd]. apply forallb_forall. intros c Hc.
  apply in_map_iff in Hc. destruct Hc as [c' [<- _]].
  destruct (classify_values c') as [-> | ->]; reflexivity.
Qed.

(** Where no cell is the empty text, missing or empty is missing. *)
Lemma is_missing_isna (c : cell) :
  negb (cell_eqb c (Str "")) = true -> is_missing c = isna_cell c.
Proof. destruct c as [|s|z]; cbn; [reflexivity | | reflexivity].
  intros H. apply negb_true_iff in H. exact H.
Qed.

Lemma row_at_no_empty_text (t : DataFrame) (i : nat) :
  no_empty_text t = true ->
  forall c, In c (row_at t i) -> negb (cell_eqb c (Str "")) = true.
Proof.
  intros Ht c Hc. unfold row_at in Hc. apply in_map_iff in Hc.
  destruct Hc as [col [<- Hcol]].
  unfold no_empty_text in Ht. rewrite forallb_forall in Ht.
  specialize (Ht col Hcol). rewrite forallb_forall in Ht.
  destruct (nth_in_or_default i (snd col) NaN) as [Hin | ->];
    [now apply Ht | reflexivity].
Qed.

Lemma some_value_not_all_missing (row : list cell) :
  (forall c, In c row -> negb (cell_eqb c (Str "")) = true) ->
  existsb notna_cell row = negb (forallb is_missing row).
Proof.
  induction row as [|c row IH]; intros H; [reflexivity|].
  cbn [existsb forallb]. rewrite negb_andb.
  rewrite IH by (intros x Hx; apply H; now right).
  unfold notna_cell. now rewrite (is_missing_isna c (H c (or_introl eq_refl))).
Qed.

(** C4, amended: for every standardized table, a row in which every column
    is missing or empty, the 18 canonical fields and the two other targets
    of the alias table alike, is excluded from the result of
    [process_file], and every other row is kept, in order and with its
    label; so every row with a canonical field that is not empty is kept.
    The empty text and the absent value are the same missing state: a
    source table as [pd.read_excel] loads it holds no empty text. *)
Theorem rows_dropped_when_all_missing (file_obj : UploadedFile)
  (df : DataFrame) (page : Page) :
  read_excel file_obj = inr df -> well_formed df = true ->
  no_empty_text df = true ->
  exists before t,
    mapped df mapper_clim = inr before
    /\ process_file file_obj mapper_clim page = (inr (Some t), page)
    /\ column_names t = column_names before
    /\ rows t
       = filter (fun r => negb (forallb is_missing (snd r))) (rows before)
    /\ (forall i c vals,
          i < len before -> In c MASTER_COLUMNS ->
          assoc c (columns before) = Some vals ->
          is_missing (nth i vals NaN) = false ->
          In (nth i (index before) 0, row_at before i) (rows t)).
Proof.
  intros Hread Hwf Htext.
  exists (mapped_clim df), (dropna_all (mapped_clim df)).
  pose proof (mapped_clim_no_empty_text df Htext) as Hclean.
  assert (Hrows : rows (dropna_all (mapped_clim df))
                  = filter (fun r => negb (forallb is_missing (snd r)))
                           (rows (mapped_clim df))).
  { rewrite (dropna_all_rows (mapped_clim df) (mapped_clim_wf df Hwf)).
    apply filter_ext_in. intros r Hr. unfold rows in Hr.
    apply in_map_iff in Hr. destruct Hr as [i [<- _]]. cbn [snd].
    apply some_value_not_all_missing.
    now apply row_at_no_empty_text. }
  split; [now apply mapped_closed_form|].
  split; [now apply process_file_loaded|].
  split; [apply dropna_all_names|]. split; [exact Hrows|].
  intros i c vals Hi _ Hcol Hval. rewrite Hrows. apply filter_In. split.
  - unfold rows.
    apply (in_map (fun i => (nth i (index (mapped_clim df)) 0,
                             row_at (mapped_clim df) i))).
    apply in_seq. lia.
  - cbn [snd]. apply negb_true_iff.
    destruct (forallb is_missing (row_at (mapped_clim df) i)) eqn:E;
      [|reflexivity].
    rewrite forallb_forall in E. rewrite <- Hval. symmetry. apply E.
    unfold row_at.
    apply (in_map (fun col => nth i (snd col) NaN) _ (c, vals)).
    now apply assoc_In.
Qed.

Lemma rows_dropped_when_all_missing_witness :
  read_excel (loaded "c.xlsx" country_table) = inr country_table
  /\ well_formed country_table = true
  /\ no_empty_text country_table = true
  /\ exists before t,
       mapped country_table mapper_clim = inr before
       /\ process_file (loaded "c.xlsx" country_table) mapper_clim []
          = (inr (Some t), [])
       /\ rows t
          = filter (fun r => negb (forallb is_missing (snd r))) (rows before)
       /\ index before = [0; 1]
       /\ index t = [0].
Proof.
  split; [reflexivity|]. split; [reflexivity|]. split; [reflexivity|].
  destruct (rows_dropped_when_all_missing
              (loaded "c.xlsx" country_table) country_table
              [] eq_refl eq_refl eq_refl)
    as [before [t [Hmapped [Hrun [_ [Hrows _]]]]]].
  exists before, t.
  split; [exact Hmapped|]. split; [exact Hrun|]. split; [exact Hrows|].
  vm_compute in Hmapped. injection Hmapped as <-.
  vm_compute in Hrun. injection Hrun as <-.
  split; reflexivity.
Defined.

(** ** The export *)

Lemma usable_master_shape (files : list UploadedFile) (d0 : DataFrame)
  (ds : list DataFrame) :
  Forall file_ok files -> usable_tables files = d0 :: ds ->
  column_names (assembled (d0 :: ds)) = MASTER_COLUMNS ++ EXTRA_COLUMNS
  /\ well_formed (assembled (d0 :: ds)) = true.
Proof.
  intros Hok Eu. split.
  - apply assembled_names; [apply header_NoDup | vm_compute; tauto |].
    rewrite <- Eu. apply (usable_tables_Forall _ files Hok).
    intros df _ _. rewrite dropna_all_names. apply mapped_clim_names.
  - apply assembled_wf. rewrite <- Eu.
    apply (usable_tables_Forall _ files Hok). intros df Hdf _.
    apply dropna_all_wf. now apply mapped_clim_wf.
Qed.

Lemma header_fits (t : DataFrame) :
  column_names t = MASTER_COLUMNS ++ EXTRA_COLUMNS ->
  length (columns t) <= MAX_COLS.
Proof.
  intros H.
  replace (length (columns t)) with (length (column_names t))
    by (unfold column_names; apply length_map).
  rewrite H. apply Nat.leb_le. vm_compute. reflexivity.
Qed.

Lemma file_lines_only (files : list UploadedFile) (e : element) :
  In e (batch_log files) -> is_file_line e = true.
Proof.
  pose proof (batch_log_file_lines files) as H.
  rewrite forallb_forall in H. apply H.
Qed.

(** C8: in every batch, a file whose table cannot be loaded makes
    [process_file] return [None] for that file, with the cause written on the
    page, and nothing more: the loop goes on, and the tables collected from
    the batch are those of the other files, as if the file were not there.
    [main] skips the artifact and signals that no data was processed exactly
    when no file of the batch gives a table with rows; otherwise it assembles
    the dataset, shows it and goes on to the export, which gives the download
    (always, when the dataset fits a sheet) or raises. *)
Theorem load_failure_is_isolated (files : list UploadedFile) (page : Page) :
  files <> [] -> Forall file_ok files ->
  (forall before bad after e,
      files = before ++ bad :: after -> read_excel bad = inl e ->
      (forall p, process_file bad mapper_clim p = (inr None, p ++ [st_error e]))
      /\ exists log,
           process_files files [] page
           = (inr (usable_tables (before ++ after)), page ++ log)
           /\ In (st_error e) log
           /\ fst (process_files (before ++ after) [] page)
              = inr (usable_tables (before ++ after)))
  /\ (usable_tables files = [] ->
      exists log,
        main files page = (inr tt, page ++ log ++ [st_info_no_data])
        /\ existsb is_download (log ++ [st_info_no_data]) = false)
  /\ (usable_tables files <> [] ->
      exists log master,
        assemble (usable_tables files) = inr master
        /\ ~ In st_info_no_data log
        /\ match to_excel master "MASTER" with
           | inr output =>
               main files page
               = (inr tt,
                  page ++ log
                  ++ [st_download_button "MASTER_POLICY_DATASET.xlsx" output])
           | inl e => main files page = (inl e, page ++ log)
           end
        /\ (len master <= MAX_ROWS ->
            exists output, to_excel master "MASTER" = inr output)).
Proof.
  intros Hne Hok.
  pose proof (main_batch files page Hne Hok) as Hmain.
  split; [|split].
  - intros before bad after e -> Hbad.
    split; [intros p; now apply process_file_failed|].
    assert (Hrest : Forall file_ok (before ++ after)).
    { apply Forall_app in Hok. destruct Hok as [Hb Ha].
      apply Forall_app. split; [exact Hb | now inversion Ha]. }
    exists (batch_log (before ++ bad :: after)).
    rewrite (process_files_collects _ Hok),
            (process_files_collects _ Hrest). cbn [app fst].
    split; [now rewrite (usable_tables_skip before after bad e Hbad)|].
    split; [|reflexivity].
    unfold batch_log. rewrite flat_map_app. apply in_or_app. right.
    cbn [flat_map]. apply in_or_app. left.
    unfold file_log. rewrite Hbad. right. now left.
  - intros Hnone. rewrite Hnone in Hmain.
    exists ([st_title; st_write_intro] ++ batch_log files).
    split; [now rewrite Hmain, <- !app_assoc|].
    rewrite !existsb_app, batch_log_no_download. reflexivity.
  - intros Hsome.
    destruct (usable_tables files) as [|d0 ds] eqn:Eu; [contradiction|].
    destruct (usable_master_shape files d0 ds Hok Eu) as [Hnames _].
    exists ([st_title; st_write_intro] ++ batch_log files
            ++ [ st_subheader;
                 st_dataframe (head 50 (assembled (d0 :: ds)));
                 st_write_total (len (assembled (d0 :: ds))) ]),
           (assembled (d0 :: ds)).
    split; [apply assemble_nonempty|]. split; [|split].
    + intros Hin. apply in_app_or in Hin.
      destruct Hin as [[H | [H | []]] | Hin]; try discriminate H.
      apply in_app_or in Hin. destruct Hin as [Hin | Hin].
      * apply file_lines_only in Hin. discriminate Hin.
      * destruct Hin as [H | [H | [H | []]]]; discriminate H.
    + cbv zeta in Hmain. revert Hmain.
      destruct (to_excel (assembled (d0 :: ds)) "MASTER") as [e | output];
        intros ->; rewrite <- ?app_assoc; reflexivity.
    + intros Hfit.
      rewrite (to_excel_outcome _ _ (header_fits _ Hnames)).
      apply Nat.ltb_ge in Hfit. rewrite Hfit. eexists. reflexivity.
Qed.

Lemma load_failure_is_isolated_witness :
  sample_batch <> []
  /\ Forall file_ok sample_batch
  /\ (exists log,
        process_files sample_batch [] []
        = (inr (usable_tables [loaded "a.xlsx" sample_policy_table;
                               loaded "c.xlsx" unmatched_table]), log)
        /\ In (st_error (ReadError "File is not a zip file")) log)
  /\ exists log master output,
       assemble (usable_tables sample_batch) = inr master
       /\ to_excel master "MASTER" = inr output
       /\ main sample_batch []
          = (inr tt,
             log ++ [st_download_button "MASTER_POLICY_DATASET.xlsx" output]).
Proof.
  assert (Hne : sample_batch <> []) by discriminate.
  assert (Hok : Forall file_ok sample_batch) by (repeat constructor).
  split; [exact Hne|]. split; [exact Hok|].
  destruct (load_failure_is_isolated sample_batch [] Hne Hok)
    as [Hbad [_ Hsome]].
  split.
  - destruct (Hbad [loaded "a.xlsx" sample_policy_table] (broken "b.xlsx")
                   [loaded "c.xlsx" unmatched_table]
                   (ReadError "File is not a zip file") eq_refl eq_refl)
      as [_ [log [Hrun [Hin _]]]].
    exists log. split; [exact Hrun | exact Hin].
  - destruct Hsome as [log [master [Hasm [_ [Hmain Hfit]]]]];
      [vm_compute; discriminate|].
    destruct Hfit as [output Hout].
    + vm_compute in Hasm. injection Hasm as <-.
      apply Nat.leb_le. vm_compute. reflexivity.
    + exists log, master, output. rewrite Hout in Hmain.
      split; [exact Hasm|]. split; [exact Hout | exact Hmain].
Defined.



(** X8: for every batch, also the empty one, [main] only adds to the page;
    it announces every uploaded file once, in upload order, and gives every
    file exactly one verdict, a success or a warning, in the same order.  It
    runs to its end when the rows gathered from the batch fit a sheet, and
    raises, in the export, when they do not. *)
Theorem every_file_is_reported (files : list UploadedFile) (page : Page) :
  Forall file_ok files ->
  exists result log,
    main files page = (result, page ++ log)
    /\ announced log = map name files
    /\ verdicts log = map name files
    /\ (list_sum (map len (usable_tables files)) <= MAX_ROWS ->
        result = inr tt)
    /\ (MAX_ROWS < list_sum (map len (usable_tables files)) ->
        result = inl (ValueError "This sheet is too large!")).
Proof.
  intros Hok. destruct files as [|f rest].
  - exists (inr tt), [st_title; st_write_intro; st_info_upload].
    split; [|split; [|split; [|split]]]; try reflexivity.
    + unfold main, st. cbn [bind Monad_App]. now rewrite <- !app_assoc.
    + intros H. apply Nat.nlt_0_r in H. contradiction.
  - assert (Hne : f :: rest <> []) by discriminate.
    pose proof (main_batch (f :: rest) page Hne Hok) as Hmain.
    assert (Hlines : forall tail,
              announced tail = [] -> verdicts tail = [] ->
              announced ([st_title; st_write_intro]
                         ++ batch_log (f :: rest) ++ tail)
              = map name (f :: rest)
              /\ verdicts ([st_title; st_write_intro]
                           ++ batch_log (f :: rest) ++ tail)
                 = map name (f :: rest)).
    { intros tail Ha Hv. unfold announced, verdicts.
      rewrite !flat_map_app.
      fold (announced (batch_log (f :: rest))).
      fold (verdicts (batch_log (f :: rest))).
      fold (announced tail). fold (verdicts tail).
      rewrite Ha, Hv, batch_log_announced,
        (batch_log_verdicts (f :: rest) Hok).
      cbn [flat_map app]. now rewrite !app_nil_r. }
    destruct (usable_tables (f :: rest)) as [|d0 ds] eqn:Eu.
    + eexists. eexists. split; [exact Hmain|].
      destruct (Hlines [st_info_no_data] eq_refl eq_refl) as [Ha Hv].
      split; [exact Ha|]. split; [exact Hv|]. split; [reflexivity|].
      intros H. apply Nat.nlt_0_r in H. contradiction.
    + destruct (usable_master_shape (f :: rest) d0 ds Hok Eu) as [Hnames _].
      cbv zeta in Hmain.
      rewrite (to_excel_outcome _ _ (header_fits _ Hnames)) in Hmain.
      rewrite assembled_len in Hmain.
      destruct (MAX_ROWS <? list_sum (map len (d0 :: ds))) eqn:E.
      * apply Nat.ltb_lt in E. eexists. eexists. split; [exact Hmain|].
        destruct (Hlines [ st_subheader;
                           st_dataframe (head 50 (assembled (d0 :: ds)));
                           st_write_total
                             (list_sum (map len (d0 :: ds))) ]
                         eq_refl eq_refl) as [Ha Hv].
        split; [exact Ha|]. split; [exact Hv|].
        split; [intros H; lia | reflexivity].
      * apply Nat.ltb_ge in E. eexists. eexists. split; [exact Hmain|].
        match goal with
        | |- announced (_ ++ _ ++ ?tail) = _ /\ _ =>
            destruct (Hlines tail eq_refl eq_refl) as [Ha Hv]
        end.
        split; [exact Ha|]. split; [exact Hv|].
        split; [reflexivity | intros H; lia].
Qed.

Lemma every_file_is_reported_witness :
  Forall file_ok sample_batch
  /\ exists log,
       main sample_batch [] = (inr tt, log)
       /\ announced log = ["a.xlsx"; "b.xlsx"; "c.xlsx"]
       /\ verdicts log = ["a.xlsx"; "b.xlsx"; "c.xlsx"].
Proof.
  assert (Hok : Forall file_ok sample_batch) by (repeat constructor).
  split; [exact Hok|].
  destruct (every_file_is_reported sample_batch [] Hok)
    as [result [log [Hmain [Ha [Hv [Hfit _]]]]]].
  exists log. rewrite Hfit in Hmain.
  - split; [exact Hmain|]. split; [exact Ha | exact Hv].
  - apply Nat.leb_le. vm_compute. reflexivity.
Defined.

(** X9: when some file of the batch gives a table with rows, the total
    [main] writes is the number of rows of the assembled dataset, which is
    the sum of the row counts of the success lines above it and is at least
    1; the preview is the first rows of the dataset, 50 at most.  This holds
    whether the export that follows succeeds or raises. *)
Theorem total_matches_successes (files : list UploadedFile) (page : Page) :
  Forall file_ok files -> usable_tables files <> [] ->
  exists result log master,
    main files page = (result, page ++ log)
    /\ assemble (usable_tables files) = inr master
    /\ In (st_write_total (len master)) log
    /\ len master = list_sum (success_rows log)
    /\ 1 <= len master
    /\ In (st_dataframe (head 50 master)) log
    /\ len (head 50 master) = Nat.min 50 (len master).
Proof.
  intros Hok Hsome.
  assert (Hne : files <> []) by (intros ->; now apply Hsome).
  pose proof (main_batch files page Hne Hok) as Hmain.
  pose proof (batch_log_success_rows files Hok) as Hrows.
  assert (Hpos : Forall (fun n => 1 <= n) (map len (usable_tables files))).
  { apply Forall_map.
    apply (usable_tables_Forall (fun t => 1 <= len t) files Hok).
    intros df _ E. unfold empty in E. apply orb_false_iff in E.
    destruct E as [E _]. apply Nat.eqb_neq in E. cbv beta. lia. }
  destruct (usable_tables files) as [|d0 ds] eqn:Eu; [contradiction|].
  cbv zeta in Hmain. set (master := assembled (d0 :: ds)) in *.
  assert (Hshown : forall tail,
            success_rows tail = [] ->
            let log := [st_title; st_write_intro] ++ batch_log files
                       ++ [ st_subheader; st_dataframe (head 50 master);
                            st_write_total (len master) ] ++ tail in
            In (st_write_total (len master)) log
            /\ len master = list_sum (success_rows log)
            /\ 1 <= len master
            /\ In (st_dataframe (head 50 master)) log
            /\ len (head 50 master) = Nat.min 50 (len master)).
  { intros tail Htail log. subst log.
    split; [|split; [|split; [|split]]].
    - apply in_or_app. right. apply in_or_app. right. simpl. tauto.
    - unfold success_rows. rewrite !flat_map_app.
      fold (success_rows (batch_log files)). fold (success_rows tail).
      rewrite Hrows, Htail. cbn [flat_map app]. rewrite app_nil_r.
      apply assembled_len.
    - unfold master. rewrite assembled_len.
      apply list_sum_positive; [discriminate | exact Hpos].
    - apply in_or_app. right. apply in_or_app. right. simpl. tauto.
    - unfold len, head. cbn [index]. apply length_firstn. }
  destruct (to_excel master "MASTER") as [e | output].
  - exists (inl e),
           ([st_title; st_write_intro] ++ batch_log files
            ++ [ st_subheader; st_dataframe (head 50 master);
                 st_write_total (len master) ] ++ []),
           master.
    split; [now rewrite Hmain, app_nil_r|].
    split; [apply assemble_nonempty|]. now apply Hshown.
  - exists (inr tt),
           ([st_title; st_write_intro] ++ batch_log files
            ++ [ st_subheader; st_dataframe (head 50 master);
                 st_write_total (len master) ]
            ++ [st_download_button "MASTER_POLICY_DATASET.xlsx" output]),
           master.
    split; [now rewrite Hmain|].
    split; [apply assemble_nonempty|]. now apply Hshown.
Qed.

Lemma total_matches_successes_witness :
  Forall file_ok sample_batch
  /\ usable_tables sample_batch <> []
  /\ exists result log master,
       main sample_batch [] = (result, log)
       /\ assemble (usable_tables sample_batch) = inr master
       /\ In (st_write_total (len master)) log
       /\ len master = list_sum (success_rows log)
       /\ 1 <= len master.
Proof.
  assert (Hok : Forall file_ok sample_batch) by (repeat constructor).
  assert (Hsome : usable_tables sample_batch <> [])
    by (vm_compute; discriminate).
  split; [exact Hok|]. split; [exact Hsome|].
  destruct (total_matches_successes sample_batch [] Hok Hsome)
    as [result [log [master [Hmain [Hasm [Htotal [Hsum [Hpos _]]]]]]]].
  exists result, log, master. repeat split; assumption.
Defined.

(** X10: whatever the batch, the dataset [main] assembles has the 20
    columns of a standardized table, the canonical ones first, in the same
    order, and every one of its columns has one value per row; when it fits
    a sheet, the workbook offered for download has the sheet "MASTER" with
    these 20 names as its header. *)
Theorem master_dataset_header (files : list UploadedFile) (page : Page) :
  Forall file_ok files -> usable_tables files <> [] ->
  exists master,
    assemble (usable_tables files) = inr master
    /\ column_names master = MASTER_COLUMNS ++ EXTRA_COLUMNS
    /\ well_formed master = true
    /\ (len master <= MAX_ROWS ->
        exists log output,
          to_excel master "MASTER" = inr output
          /\ main files page
             = (inr tt,
                page ++ log
                ++ [st_download_button "MASTER_POLICY_DATASET.xlsx" output])
          /\ sheet_name output = "MASTER"
          /\ header output = MASTER_COLUMNS ++ EXTRA_COLUMNS).
Proof.
  intros Hok Hsome.
  assert (Hne : files <> []) by (intros ->; now apply Hsome).
  pose proof (main_batch files page Hne Hok) as Hmain.
  destruct (usable_tables files) as [|d0 ds] eqn:Eu; [contradiction|].
  cbv zeta in Hmain.
  destruct (usable_master_shape files d0 ds Hok Eu) as [Hnames Hwf].
  exists (assembled (d0 :: ds)).
  split; [apply assemble_nonempty|]. split; [exact Hnames|].
  split; [exact Hwf|]. intros Hfit.
  rewrite (to_excel_outcome _ _ (header_fits _ Hnames)) in Hmain |- *.
  apply Nat.ltb_ge in Hfit. rewrite Hfit in Hmain |- *.
  exists ([st_title; st_write_intro] ++ batch_log files
          ++ [ st_subheader;
               st_dataframe (head 50 (assembled (d0 :: ds)));
               st_write_total (len (assembled (d0 :: ds))) ]).
  eexists. split; [reflexivity|].
  split; [now rewrite Hmain, <- !app_assoc|].
  split; [reflexivity | exact Hnames].
Qed.

Lemma master_dataset_header_witness :
  Forall file_ok sample_batch
  /\ usable_tables sample_batch <> []
  /\ exists master,
       assemble (usable_tables sample_batch) = inr master
       /\ column_names master = MASTER_COLUMNS ++ EXTRA_COLUMNS
       /\ well_formed master = true
       /\ exists log output,
            to_excel master "MASTER" = inr output
            /\ main sample_batch []
               = (inr tt,
                  log ++ [st_download_button "MASTER_POLICY_DATASET.xlsx"
                                             output])
            /\ header output = MASTER_COLUMNS ++ EXTRA_COLUMNS.
Proof.
  assert (Hok : Forall file_ok sample_batch) by (repeat constructor).
  assert (Hsome : usable_tables sample_batch <> [])
    by (vm_compute; discriminate).
  split; [exact Hok|]. split; [exact Hsome|].
  destruct (master_dataset_header sample_batch [] Hok Hsome)
    as [master [Hasm [Hnames [Hwf Hfit]]]].
  exists master. split; [exact Hasm|]. split; [exact Hnames|].
  split; [exact Hwf|].
  destruct Hfit as [log [output [Hout [Hmain [_ Hheader]]]]].
  - vm_compute in Hasm. injection Hasm as <-.
    apply Nat.leb_le. vm_compute. reflexivity.
  - exists log, output. split; [exact Hout|]. split; [exact Hmain|].
    exact Hheader.
Defined.
